(** * Diet dataset routes: cleaning, querying, statistics and their caches

    A shallow embedding of the two Next.js API routes of the repository:

    - the dataset route ([Dataset]): [cleanDataset], [loadData] with its
      module-level cache ([cachedData], [lastFileModTime]) and the [GET]
      handler that filters and sorts;
    - the statistics route ([Statistics]): [loadAndCleanData],
      [calculateStatistics] and the [GET] handler with its one-hour cache.

    JavaScript numbers are IEEE 754 binary64 values, i.e. Rocq's primitive
    floats.  Strings are sequences of 8-bit code units (the ASCII fragment of
    JavaScript strings): [toLowerCase] maps [A-Z] only and [trim] strips the
    ASCII white space characters.  Arrays live in a store indexed by
    references, because the dataset handler sorts arrays in place and the
    cache hands out the very array it holds. *)

From Stdlib Require Import ZArith Floats Ascii String OrderedTypeEx.
From stdpp Require Import base option list gmap strings sorting.

Open Scope Z_scope.

(** ** JavaScript primitives used by the routes *)
Module JS.

(** *** Numbers *)

(** The binary64 value nearest to the rational [p / q] ([0 <= p], [0 < q]),
    ties to even, with sign [neg].  The quotient is computed with at least
    two guard bits and a sticky bit, then rounded once. *)
Definition of_ratio (neg : bool) (p q : Z) : float :=
  if p =? 0 then (if neg then neg_zero else 0%float) else
  let s := Z.max 0 (56 + Z.log2 q - Z.log2 p) in
  let n := p * 2 ^ s in
  let sticky := if n mod q =? 0 then 0 else 1 in
  let m := 2 * (n / q) + sticky in
  SF2Prim (binary_normalize prec emax (if neg then - m else m) (- (s + 1)) neg).

(** The Number value of the decimal literal [m * 10^e10]. *)
Definition of_decimal (neg : bool) (m e10 : Z) : float :=
  if 0 <=? e10 then of_ratio neg (m * 10 ^ e10) 1
  else of_ratio neg m (10 ^ (- e10)).

(** [x || 0] on a number: [NaN], [+0] and [-0] are falsy. *)
Definition or_zero (x : float) : float :=
  if is_nan x || is_zero x then 0%float else x.

(** [a >= b] and [a <= b] on numbers (false as soon as one side is NaN). *)
Definition ge (a b : float) : bool := PrimFloat.leb b a.
Definition le (a b : float) : bool := PrimFloat.leb a b.

(** One step of [Math.max]: NaN is contagious and [+0] is above [-0]. *)
Definition max2 (highest number : float) : float :=
  if is_nan highest || is_nan number then nan
  else if PrimFloat.ltb highest number then number
  else if PrimFloat.ltb number highest then highest
  else if get_sign highest then number else highest.

(** [Math.max(...l)]; the maximum of no argument is [-Infinity]. *)
Definition Math_max (l : list float) : float := fold_left max2 l neg_infinity.

(** [parseFloat(x.toFixed(2))].  [toFixed(2)] picks the integer [n] with
    [n / 100] closest to [|x|] (the larger one on a tie) and prints it with
    two decimals; for [|x| >= 1e21] and for non-finite [x] it prints
    [ToString x], which [parseFloat] reads back as [x]. *)
Definition toFixed2 (x : float) : float :=
  match Prim2SF x with
  | S754_nan => nan
  | S754_infinity _ => x
  | S754_zero _ => 0%float
  | S754_finite s m e =>
      if PrimFloat.leb 1e21%float (abs x) then x
      else
        let n := if 0 <=? e then Zpos m * 100 * 2 ^ e
                 else (Zpos m * 100 * 2 + 2 ^ (- e)) / 2 ^ (- e + 1) in
        of_decimal s n (-2)
  end.

(** [data.reduce((sum, item) => sum + f(item), 0)]. *)
Definition sum_by {A} (f : A → float) (l : list A) : float :=
  fold_left (fun sum item => (sum + f item)%float) l 0%float.

(** *** Strings *)

Definition code (c : ascii) : Z := Z.of_N (N_of_ascii c).

(** White space ([\s], and what [trim] and [parseFloat] skip): TAB, LF, VT,
    FF, CR and SPACE. *)
Definition is_space (c : ascii) : bool :=
  ((9 <=? code c) && (code c <=? 13)) || (code c =? 32).

Definition is_upper (c : ascii) : bool := (65 <=? code c) && (code c <=? 90).
Definition is_lower (c : ascii) : bool := (97 <=? code c) && (code c <=? 122).
Definition is_digit (c : ascii) : bool := (48 <=? code c) && (code c <=? 57).

Definition lower_char (c : ascii) : ascii :=
  if is_upper c then ascii_of_N (N_of_ascii c + 32) else c.

Definition chars (s : string) : list ascii := list_ascii_of_string s.
Definition str (l : list ascii) : string := string_of_list_ascii l.

Definition toLowerCase (s : string) : string := str (lower_char <$> chars s).

Fixpoint trimStart_chars (l : list ascii) : list ascii :=
  match l with
  | c :: l' => if is_space c then trimStart_chars l' else l
  | [] => []
  end.

Definition trim (s : string) : string :=
  str (rev (trimStart_chars (rev (trimStart_chars (chars s))))).

(** [s.replace(/[^a-z0-9\s]/g, '')]. *)
Definition strip_non_alnum (s : string) : string :=
  str (List.filter (fun c => is_lower c || is_digit c || is_space c) (chars s)).

Fixpoint starts_with (p l : list ascii) : bool :=
  match p, l with
  | [], _ => true
  | a :: p', b :: l' => Ascii.eqb a b && starts_with p' l'
  | _ :: _, [] => false
  end.

Fixpoint includes_chars (l sub : list ascii) : bool :=
  starts_with sub l ||
  match l with
  | [] => false
  | _ :: l' => includes_chars l' sub
  end.

(** [s.includes(sub)]. *)
Definition includes (s sub : string) : bool := includes_chars (chars s) (chars sub).

(** Truthiness of a possibly undefined string: defined and not empty. *)
Definition truthy (o : option string) : bool :=
  match o with
  | Some s => negb (String.eqb s "")
  | None => false
  end.

(** *** Numeric literals: [parseFloat] and [Number] on strings *)

(** Reads decimal digits: the value read after [acc], how many digits were
    read, and the rest. *)
Fixpoint read_digits (acc : Z) (l : list ascii) : Z * Z * list ascii :=
  match l with
  | c :: l' =>
      if is_digit c then
        let '(v, n, r) := read_digits (acc * 10 + (code c - 48)) l' in (v, n + 1, r)
      else (acc, 0, l)
  | [] => (acc, 0, [])
  end.

Definition read_sign (l : list ascii) : bool * list ascii :=
  match l with
  | c :: l' =>
      if Ascii.eqb c "-" then (true, l')
      else if Ascii.eqb c "+" then (false, l')
      else (false, l)
  | [] => (false, [])
  end.

(** An optional [ExponentPart]: [e] or [E], an optional sign and at least
    one digit; otherwise nothing is consumed. *)
Definition read_exponent (l : list ascii) : Z * list ascii :=
  match l with
  | c :: l' =>
      if Ascii.eqb c "e" || Ascii.eqb c "E" then
        let (neg, l'') := read_sign l' in
        let '(v, n, r) := read_digits 0 l'' in
        if n =? 0 then (0, l) else (if neg then - v else v, r)
      else (0, l)
  | [] => (0, [])
  end.

(** The longest prefix of [l] that is a [StrDecimalLiteral], as its Number
    value, and what follows it; [None] when no prefix is one. *)
Definition read_decimal (l : list ascii) : option (float * list ascii) :=
  let (neg, l1) := read_sign l in
  if starts_with (chars "Infinity") l1 then
    Some (if neg then neg_infinity else infinity, drop 8 l1)
  else
    let '(ip, ni, l2) := read_digits 0 l1 in
    match l2 with
    | c :: l3 =>
        if Ascii.eqb c "." then
          let '(m, nf, l4) := read_digits ip l3 in
          if (ni =? 0) && (nf =? 0) then None
          else
            let (e, l5) := read_exponent l4 in
            Some (of_decimal neg m (e - nf), l5)
        else if ni =? 0 then None
        else
          let (e, l5) := read_exponent l2 in
          Some (of_decimal neg ip e, l5)
    | [] => if ni =? 0 then None else Some (of_decimal neg ip 0, [])
    end.

(** [parseFloat(s)]: leading white space is skipped, trailing text is
    ignored, NaN when no number starts the string. *)
Definition parseFloat (s : string) : float :=
  match read_decimal (trimStart_chars (chars s)) with
  | Some (v, _) => v
  | None => nan
  end.

(** [parseFloat(x)] where [x] may be [undefined] (read as the text
    "undefined", hence NaN). *)
Definition parseFloat_opt (o : option string) : float :=
  match o with
  | Some s => parseFloat s
  | None => nan
  end.

Definition radix_digit (radix : Z) (c : ascii) : option Z :=
  let v := if is_digit c then code c - 48
           else if is_lower c then code c - 87
           else if is_upper c then code c - 55
           else radix in
  if v <? radix then Some v else None.

Fixpoint read_radix (radix : Z) (acc : Z) (l : list ascii) : option Z :=
  match l with
  | [] => Some acc
  | c :: l' =>
      match radix_digit radix c with
      | Some v => read_radix radix (acc * radix + v) l'
      | None => None
      end
  end.

(** [0x..], [0o..] and [0b..] literals with at least one digit. *)
Definition read_non_decimal (l : list ascii) : option float :=
  match l with
  | z :: p :: (_ :: _) as ds =>
      if Ascii.eqb z "0" then
        let radix := if Ascii.eqb (lower_char p) "x" then 16
                     else if Ascii.eqb (lower_char p) "o" then 8
                     else if Ascii.eqb (lower_char p) "b" then 2
                     else 0 in
        if radix =? 0 then None
        else (fun v => of_decimal false v 0) <$> read_radix radix 0 ds
      else None
  | _ => None
  end.

(** [Number(s)], the conversion applied to a string operand of [-]: the
    whole trimmed string must be a numeric literal; the empty string is 0. *)
Definition toNumber (s : string) : float :=
  let l := chars (trim s) in
  match l with
  | [] => 0%float
  | _ =>
      match read_decimal l with
      | Some (v, []) => v
      | _ =>
          match read_non_decimal l with
          | Some v => v
          | None => nan
          end
      end
  end.

(** *** Arrays and objects *)

(** [l.sort(cmp)], stable: [gt a b] says that the comparator's result on
    [(a, b)] is positive, i.e. that [a] must come after [b].  For a
    consistent comparator every stable sort returns this list. *)
Section Sort.
Context {A : Type} (gt : A → A → bool).

Fixpoint sort_insert (x : A) (l : list A) : list A :=
  match l with
  | [] => [x]
  | y :: l' => if gt x y then y :: sort_insert x l' else x :: l
  end.

Definition Array_sort (l : list A) : list A := foldr sort_insert [] l.
End Sort.

(** A comparator result [v] is positive (NaN counts as [+0]). *)
Definition positive (v : float) : bool := PrimFloat.ltb 0%float v.

(** [[...new Set(l)]]: first occurrences, in order. *)
Definition Set_elements (l : list string) : list string :=
  fold_left (fun acc x => if bool_decide (x ∈ acc) then acc else acc ++ [x]) l [].

(** [l.sort()] on strings: ascending code-unit order. *)
Definition sort_strings (l : list string) : list string :=
  Array_sort (fun a b => String.ltb b a) l.

(** A canonical array index: ["0"], or digits without leading zero, below
    [2^32 - 1]. *)
Definition array_index (k : string) : option Z :=
  match chars k with
  | [] => None
  | c :: l =>
      if forallb is_digit (c :: l) && (negb (Ascii.eqb c "0") || bool_decide (l = [])) then
        let '(v, _, _) := read_digits 0 (c :: l) in
        if v <? 2 ^ 32 - 1 then Some v else None
      else None
  end.

(** A plain object used as a dictionary, as the list of its entries in
    enumeration order ([Object.entries]): array-index keys first, in
    ascending order, then the other keys in insertion order.  The entries
    are the properties of the object's own; what a read finds under a name
    that has no entry is told by [inherited] below. *)
Definition object (V : Type) : Type := list (string * V).

Definition obj_get {V} (o : object V) (k : string) : option V :=
  snd <$> List.find (fun kv => String.eqb (fst kv) k) o.

(** Where a new key [k] goes: before the first entry that must follow it. *)
Fixpoint obj_add {V} (k : string) (v : V) (o : object V) : object V :=
  match o with
  | [] => [(k, v)]
  | (k', v') :: o' =>
      let before :=
        match array_index k, array_index k' with
        | Some i, Some i' => i <? i'
        | Some _, None => true
        | None, _ => false
        end in
      if before then (k, v) :: o else (k', v') :: obj_add k v o'
  end.

(** [o[k] = v]. *)
Definition obj_set {V} (k : string) (v : V) (o : object V) : object V :=
  match obj_get o k with
  | Some _ => (fun kv => if String.eqb (fst kv) k then (k, v) else kv) <$> o
  | None => obj_add k v o
  end.

(** The names a plain object inherits from [Object.prototype].  Read on an
    object that has no entry of its own under such a name, [o[k]] is not
    [undefined]: it is a function or, for [__proto__], the prototype; it
    is truthy, and none of them has a [push]. *)
Definition inherited_names : list string :=
  ["constructor"; "__defineGetter__"; "__defineSetter__"; "hasOwnProperty";
   "__lookupGetter__"; "__lookupSetter__"; "isPrototypeOf"; "propertyIsEnumerable";
   "toString"; "valueOf"; "__proto__"; "toLocaleString"].

Definition inherited (k : string) : bool := bool_decide (k ∈ inherited_names).

End JS.

(** ** Rows of the source file *)

(** A row as [Papa.parse(text, {header: true})] returns it: the text of each
    column, by column name; a column that a short row lacks is [undefined]. *)
Record RawRecord := {
  raw_Recipe_name : option string;
  raw_Diet_type : option string;
  raw_Cuisine_type : option string;
  raw_Protein_g : option string;
  raw_Carbs_g : option string;
  raw_Fat_g : option string;
}.

(** A file of the host, one that can be read: its modification time in
    milliseconds and its text.  A file system is the map from the paths at
    which such a file exists to the file; at a path without entry nothing
    exists ([existsSync] is false). *)
Record File := {
  mtimeMs : float;
  text : string;
}.

(** The key under which both routes remember a row:
    [`${row.Recipe_name}_${row.Diet_type}`]. *)
Definition dedup_key (name diet : string) : string :=
  String.append name (String.append "_" diet).

(** [row.Cuisine_type?.toLowerCase().trim() || '']. *)
Definition clean_cuisine (c : option string) : string :=
  match c with
  | Some c => JS.trim (JS.toLowerCase c)
  | None => ""
  end.

(** [protein >= 2000 || carbs >= 3000 || fat >= 2000]. *)
Definition is_outlier (protein carbs fat : float) : bool :=
  JS.ge protein 2000%float || JS.ge carbs 3000%float || JS.ge fat 2000%float.

(** [parseFloat(row[column]) || 0]. *)
Definition parse_macro (column : option string) : float :=
  JS.or_zero (JS.parseFloat_opt column).

(** ** The dataset route: cleaning *)
Module Dataset.

Record DietRecord := {
  Recipe_name : string;
  Diet_type : string;
  Cuisine_type : string;
  Protein_g : float;
  Carbs_g : float;
  Fat_g : float;
  Calories : float;
  Total_macros : float;
  Recipe_name_search : string;
}.

(** The object pushed for a row whose required fields are [name], [diet]. *)
Definition make_record (name diet : string) (row : RawRecord) : DietRecord :=
  let protein := parse_macro (raw_Protein_g row) in
  let carbs := parse_macro (raw_Carbs_g row) in
  let fat := parse_macro (raw_Fat_g row) in
  let totalMacros := (protein + carbs + fat)%float in
  let calories := (protein * 4 + carbs * 4 + fat * 9)%float in
  let recipeNameSearch := JS.strip_non_alnum (JS.toLowerCase name) in
  {| Recipe_name := JS.trim name;
     Diet_type := JS.trim (JS.toLowerCase diet);
     Cuisine_type := clean_cuisine (raw_Cuisine_type row);
     Protein_g := protein;
     Carbs_g := carbs;
     Fat_g := fat;
     Calories := calories;
     Total_macros := totalMacros;
     Recipe_name_search := recipeNameSearch |}.

(** The [for (const row of rawData)] loop of [cleanDataset], with its two
    local variables [cleaned] and [seen]; each [continue] is a recursive
    call that leaves [cleaned] as it is. *)
Fixpoint clean_loop (rawData : list RawRecord) (cleaned : list DietRecord)
    (seen : gset string) : list DietRecord :=
  match rawData with
  | [] => cleaned
  | row :: rest =>
      if negb (JS.truthy (raw_Recipe_name row)) || negb (JS.truthy (raw_Diet_type row))
      then clean_loop rest cleaned seen
      else
        let name := default "" (raw_Recipe_name row) in
        let diet := default "" (raw_Diet_type row) in
        let key := dedup_key name diet in
        if bool_decide (key ∈ seen) then clean_loop rest cleaned seen
        else
          let seen := {[key]} ∪ seen in
          let protein := parse_macro (raw_Protein_g row) in
          let carbs := parse_macro (raw_Carbs_g row) in
          let fat := parse_macro (raw_Fat_g row) in
          if is_outlier protein carbs fat then clean_loop rest cleaned seen
          else clean_loop rest (cleaned ++ [make_record name diet row]) seen
  end.

Definition cleanDataset (rawData : list RawRecord) : list DietRecord :=
  clean_loop rawData [] ∅.

(** *** The module state and the array store *)

(** A reference to an array of records. *)
Definition ref : Type := nat.

(** The arrays allocated so far, and the module-level variables
    [cachedData], [lastFileModTime] and [CSV_FILE_PATH].  [cachedData]
    holds a reference: whoever gets it from [loadData] holds the cached
    array itself.  [fileReads] counts the calls of [fs.readFileSync]. *)
Record Globals := {
  heap : gmap ref (list DietRecord);
  next_ref : ref;
  cachedData : option ref;
  lastFileModTime : option float;
  CSV_FILE_PATH : option string;
  fileReads : nat;
}.

Definition initial : Globals :=
  {| heap := ∅; next_ref := 0%nat; cachedData := None; lastFileModTime := None;
     CSV_FILE_PATH := None; fileReads := 0%nat |}.

(** The array behind a reference. *)
Definition deref (g : Globals) (r : ref) : list DietRecord := default [] (heap g !! r).

(** The cached dataset, as a sequence. *)
Definition cached_array (g : Globals) : option (list DietRecord) :=
  deref g <$> cachedData g.

(** Computations on the module state. *)
Definition M (A : Type) : Type := Globals → A * Globals.

Definition ret {A} (a : A) : M A := fun g => (a, g).

Definition bind {A B} (m : M A) (k : A → M B) : M B :=
  fun g => let (a, g') := m g in k a g'.

Notation "'let*' x := m 'in' k" := (bind m (fun x => k))
  (at level 10, x name, m at level 100, k at level 200).

(** A new array with the elements [l]. *)
Definition new_array (l : list DietRecord) : M ref := fun g =>
  (next_ref g,
   {| heap := <[next_ref g := l]> (heap g); next_ref := S (next_ref g);
      cachedData := cachedData g; lastFileModTime := lastFileModTime g;
      CSV_FILE_PATH := CSV_FILE_PATH g; fileReads := fileReads g |}).

(** [data.filter(p)]: a new array, [data] is left alone. *)
Definition Array_filter (p : DietRecord → bool) (data : ref) : M ref := fun g =>
  new_array (List.filter p (deref g data)) g.

(** [data.sort(cmp)]: the array behind [data] is reordered in place. *)
Definition Array_sort_in_place (gt : DietRecord → DietRecord → bool) (data : ref) : M unit :=
  fun g =>
    (tt,
     {| heap := <[data := JS.Array_sort gt (deref g data)]> (heap g); next_ref := next_ref g;
        cachedData := cachedData g; lastFileModTime := lastFileModTime g;
        CSV_FILE_PATH := CSV_FILE_PATH g; fileReads := fileReads g |}).

(** [if (cond) data = data.filter(p)]. *)
Definition filter_if (cond : bool) (p : DietRecord → bool) (data : ref) : M ref :=
  if cond then Array_filter p data else ret data.

(** *** The request and the response *)

(** [searchParams.get(name)]: the first value given for [name], or [null]. *)
Definition get (searchParams : list (string * string)) (name : string) : option string :=
  snd <$> List.find (fun kv => String.eqb (fst kv) name) searchParams.

(** The records sent back: [Recipe_name_search] is removed. *)
Record RecordView := {
  v_Recipe_name : string;
  v_Diet_type : string;
  v_Cuisine_type : string;
  v_Protein_g : float;
  v_Carbs_g : float;
  v_Fat_g : float;
  v_Calories : float;
  v_Total_macros : float;
}.

Definition view (item : DietRecord) : RecordView :=
  {| v_Recipe_name := Recipe_name item;
     v_Diet_type := Diet_type item;
     v_Cuisine_type := Cuisine_type item;
     v_Protein_g := Protein_g item;
     v_Carbs_g := Carbs_g item;
     v_Fat_g := Fat_g item;
     v_Calories := Calories item;
     v_Total_macros := Total_macros item |}.

Record FiltersApplied := {
  fa_diet_type : option string;
  fa_cuisine_type : option string;
  fa_search : option string;
  fa_min_protein : option float;
  fa_max_protein : option float;
  fa_min_carbs : option float;
  fa_max_carbs : option float;
  fa_min_fat : option float;
  fa_max_fat : option float;
  fa_min_calories : option float;
  fa_max_calories : option float;
  fa_sort_by : option string;
  fa_sort_order : option string;
}.

Record Body := {
  data : list RecordView;
  total_items : nat;
  filters_applied : FiltersApplied;
}.

Inductive Response :=
| Json200 (body : Body)
| Json500 (error : string).

(** [s || null] and [s ? parseFloat(s) : null]. *)
Definition or_null (s : option string) : option string :=
  if JS.truthy s then s else None.
Definition number_or_null (s : option string) : option float :=
  if JS.truthy s then Some (JS.parseFloat_opt s) else None.

(** *** Sorting *)

(** The values of [sortFieldMap]. *)
Inductive Field := F_Protein | F_Carbs | F_Fat | F_Calories | F_Recipe_name.

(** [sortFieldMap[sortBy]].  (A [sort_by] naming a member of
    [Object.prototype] also passes the guard, with a comparator that is
    constantly zero: the array keeps its order, as when nothing is sorted.) *)
Definition sortFieldMap (sortBy : string) : option Field :=
  if String.eqb sortBy "protein" then Some F_Protein
  else if String.eqb sortBy "carbs" then Some F_Carbs
  else if String.eqb sortBy "fat" then Some F_Fat
  else if String.eqb sortBy "calories" then Some F_Calories
  else if String.eqb sortBy "recipe_name" then Some F_Recipe_name
  else None.

(** What a record field holds: a string or a number. *)
Inductive value :=
| VStr (s : string)
| VNum (x : float).

(** [a[field] || 0]. *)
Definition field_or_zero (field : Field) (a : DietRecord) : value :=
  match field with
  | F_Protein => VNum (JS.or_zero (Protein_g a))
  | F_Carbs => VNum (JS.or_zero (Carbs_g a))
  | F_Fat => VNum (JS.or_zero (Fat_g a))
  | F_Calories => VNum (JS.or_zero (Calories a))
  | F_Recipe_name => if String.eqb (Recipe_name a) "" then VNum 0%float else VStr (Recipe_name a)
  end.

(** The operand of [-] as a number. *)
Definition number_of (v : value) : float :=
  match v with
  | VStr s => JS.toNumber s
  | VNum x => x
  end.

Section Host.
(** [Papa.parse(fileContent, {header: true, skipEmptyLines: true}).data],
    [a.localeCompare(b)] and the second entry of [possiblePaths], which
    depends on the working directory. *)
Variable Papa_parse : string → list RawRecord.
Variable localeCompare : string → string → float.
Variable localPath : string.

(** The comparator handed to [data.sort]. *)
Definition compare (field : Field) (sortOrder : string) (a b : DietRecord) : float :=
  let aVal := field_or_zero field a in
  let bVal := field_or_zero field b in
  match aVal, bVal with
  | VStr sa, VStr sb =>
      if String.eqb sortOrder "asc" then localeCompare sa sb else localeCompare sb sa
  | _, _ =>
      if String.eqb sortOrder "asc" then (number_of aVal - number_of bVal)%float
      else (number_of bVal - number_of aVal)%float
  end.

(** *** [loadData] *)

Definition possiblePaths : list string := ["/app/backend/data/All_Diets.csv"; localPath].

(** [findCSVPath]: the first path that exists, or the error thrown. *)
Definition findCSVPath (fs : gmap string File) : string + string :=
  match List.find (fun csvPath => bool_decide (is_Some (fs !! csvPath))) possiblePaths with
  | Some csvPath => inr csvPath
  | None => inl "CSV file not found in any expected location"
  end.

Definition set_CSV_FILE_PATH (p : string) (g : Globals) : Globals :=
  {| heap := heap g; next_ref := next_ref g;
     cachedData := cachedData g; lastFileModTime := lastFileModTime g;
     CSV_FILE_PATH := Some p; fileReads := fileReads g |}.

(** [cachedData = cleanedData; lastFileModTime = currentModTime], after
    one more [readFileSync]. *)
Definition update_cache (cleanedData : ref) (currentModTime : float) (g : Globals) : Globals :=
  {| heap := heap g; next_ref := next_ref g;
     cachedData := Some cleanedData; lastFileModTime := Some currentModTime;
     CSV_FILE_PATH := CSV_FILE_PATH g; fileReads := S (fileReads g) |}.

(** [lastFileModTime === currentModTime]; [null] equals no number. *)
Definition same_time (last : option float) (currentModTime : float) : bool :=
  match last with
  | Some t => PrimFloat.eqb t currentModTime
  | None => false
  end.

(** [loadData]: the error thrown ([inl]) or the array returned ([inr]). *)
Definition loadData (fs : gmap string File) : M (string + ref) := fun g =>
  let init :=
    if JS.truthy (CSV_FILE_PATH g) then inr g
    else match findCSVPath fs with
         | inr p => inr (set_CSV_FILE_PATH p g)
         | inl e => inl e
         end in
  match init with
  | inl e => (inl e, g)
  | inr g1 =>
      match fs !! default "" (CSV_FILE_PATH g1) with
      | None => (inl "CSV file not found", g1)
      | Some file =>
          let currentModTime := mtimeMs file in
          match cachedData g1 with
          | Some cached =>
              if same_time (lastFileModTime g1) currentModTime then (inr cached, g1)
              else
                let (cleanedData, g2) := new_array (cleanDataset (Papa_parse (text file))) g1 in
                (inr cleanedData, update_cache cleanedData currentModTime g2)
          | None =>
              let (cleanedData, g2) := new_array (cleanDataset (Papa_parse (text file))) g1 in
              (inr cleanedData, update_cache cleanedData currentModTime g2)
          end
      end
  end.

(** *** [GET] *)

(** The part of [GET] between [loadData] and the response: filters, then
    the sort, in place, of whatever array [data] refers to by then. *)
Definition filter_and_sort (searchParams : list (string * string)) (data : ref) : M ref :=
  let dietType := (fun s => JS.trim (JS.toLowerCase s)) <$> get searchParams "diet_type" in
  let* data := filter_if (JS.truthy dietType)
                 (fun item => String.eqb (Diet_type item) (default "" dietType)) data in
  let cuisineType := (fun s => JS.trim (JS.toLowerCase s)) <$> get searchParams "cuisine_type" in
  let* data := filter_if (JS.truthy cuisineType)
                 (fun item => String.eqb (Cuisine_type item) (default "" cuisineType)) data in
  let search := (fun s => JS.trim (JS.toLowerCase s)) <$> get searchParams "search" in
  let* data := filter_if (JS.truthy search)
                 (fun item => JS.includes (Recipe_name_search item) (default "" search)) data in
  let minProtein := get searchParams "min_protein" in
  let* data := filter_if (JS.truthy minProtein)
                 (fun item => JS.ge (Protein_g item) (JS.parseFloat_opt minProtein)) data in
  let maxProtein := get searchParams "max_protein" in
  let* data := filter_if (JS.truthy maxProtein)
                 (fun item => JS.le (Protein_g item) (JS.parseFloat_opt maxProtein)) data in
  let minCarbs := get searchParams "min_carbs" in
  let* data := filter_if (JS.truthy minCarbs)
                 (fun item => JS.ge (Carbs_g item) (JS.parseFloat_opt minCarbs)) data in
  let maxCarbs := get searchParams "max_carbs" in
  let* data := filter_if (JS.truthy maxCarbs)
                 (fun item => JS.le (Carbs_g item) (JS.parseFloat_opt maxCarbs)) data in
  let minFat := get searchParams "min_fat" in
  let* data := filter_if (JS.truthy minFat)
                 (fun item => JS.ge (Fat_g item) (JS.parseFloat_opt minFat)) data in
  let maxFat := get searchParams "max_fat" in
  let* data := filter_if (JS.truthy maxFat)
                 (fun item => JS.le (Fat_g item) (JS.parseFloat_opt maxFat)) data in
  let minCalories := get searchParams "min_calories" in
  let* data := filter_if (JS.truthy minCalories)
                 (fun item => JS.ge (JS.or_zero (Calories item))
                                (JS.parseFloat_opt minCalories)) data in
  let maxCalories := get searchParams "max_calories" in
  let* data := filter_if (JS.truthy maxCalories)
                 (fun item => JS.le (JS.or_zero (Calories item))
                                (JS.parseFloat_opt maxCalories)) data in
  let sortBy := JS.toLowerCase <$> get searchParams "sort_by" in
  let sortOrder := default "asc" (or_null (JS.toLowerCase <$> get searchParams "sort_order")) in
  let* _ :=
    match (if JS.truthy sortBy then sortFieldMap (default "" sortBy) else None) with
    | Some field =>
        Array_sort_in_place
          (fun a b => JS.positive (compare field sortOrder a b)) data
    | None => ret tt
    end in
  ret data.

(** The [filters_applied] object of the response. *)
Definition echo (searchParams : list (string * string)) : FiltersApplied :=
  let sortBy := JS.toLowerCase <$> get searchParams "sort_by" in
  let sortOrder := default "asc" (or_null (JS.toLowerCase <$> get searchParams "sort_order")) in
  {| fa_diet_type :=
       or_null ((fun s => JS.trim (JS.toLowerCase s)) <$> get searchParams "diet_type");
     fa_cuisine_type :=
       or_null ((fun s => JS.trim (JS.toLowerCase s)) <$> get searchParams "cuisine_type");
     fa_search :=
       or_null ((fun s => JS.trim (JS.toLowerCase s)) <$> get searchParams "search");
     fa_min_protein := number_or_null (get searchParams "min_protein");
     fa_max_protein := number_or_null (get searchParams "max_protein");
     fa_min_carbs := number_or_null (get searchParams "min_carbs");
     fa_max_carbs := number_or_null (get searchParams "max_carbs");
     fa_min_fat := number_or_null (get searchParams "min_fat");
     fa_max_fat := number_or_null (get searchParams "max_fat");
     fa_min_calories := number_or_null (get searchParams "min_calories");
     fa_max_calories := number_or_null (get searchParams "max_calories");
     fa_sort_by := or_null sortBy;
     fa_sort_order := if JS.truthy sortBy then Some sortOrder else None |}.

(** The handler: the response, and the module state it leaves. *)
Definition GET (fs : gmap string File) (searchParams : list (string * string)) : M Response :=
  let* loaded := loadData fs in
  match loaded with
  | inl message => ret (Json500 message)
  | inr data =>
      let* data := filter_and_sort searchParams data in
      fun g =>
        let cleanedData := view <$> deref g data in
        (Json200 {| data := cleanedData;
                    total_items := length cleanedData;
                    filters_applied := echo searchParams |}, g)
  end.

(** A sequence of requests, each served on the state the previous one
    left; the file system may change between two requests. *)
Fixpoint serve (requests : list (gmap string File * list (string * string)))
    : M (list Response) :=
  match requests with
  | [] => ret []
  | (fs, searchParams) :: rest =>
      let* r := GET fs searchParams in
      let* rs := serve rest in
      ret (r :: rs)
  end.

End Host.

End Dataset.

(** ** The statistics route *)
Module Statistics.

Record DietRecord := {
  Recipe_name : string;
  Diet_type : string;
  Cuisine_type : string;
  Protein_g : float;
  Carbs_g : float;
  Fat_g : float;
  Calories : float;
}.

Definition make_record (name diet : string) (row : RawRecord) : DietRecord :=
  let protein := parse_macro (raw_Protein_g row) in
  let carbs := parse_macro (raw_Carbs_g row) in
  let fat := parse_macro (raw_Fat_g row) in
  let calories := (protein * 4 + carbs * 4 + fat * 9)%float in
  {| Recipe_name := JS.trim name;
     Diet_type := JS.trim (JS.toLowerCase diet);
     Cuisine_type := clean_cuisine (raw_Cuisine_type row);
     Protein_g := protein;
     Carbs_g := carbs;
     Fat_g := fat;
     Calories := calories |}.

(** The loop of [loadAndCleanData] over the parsed rows. *)
Fixpoint clean_loop (rows : list RawRecord) (cleaned : list DietRecord)
    (seen : gset string) : list DietRecord :=
  match rows with
  | [] => cleaned
  | row :: rest =>
      if negb (JS.truthy (raw_Recipe_name row)) || negb (JS.truthy (raw_Diet_type row))
      then clean_loop rest cleaned seen
      else
        let name := default "" (raw_Recipe_name row) in
        let diet := default "" (raw_Diet_type row) in
        let key := dedup_key name diet in
        if bool_decide (key ∈ seen) then clean_loop rest cleaned seen
        else
          let seen := {[key]} ∪ seen in
          let protein := parse_macro (raw_Protein_g row) in
          let carbs := parse_macro (raw_Carbs_g row) in
          let fat := parse_macro (raw_Fat_g row) in
          if is_outlier protein carbs fat then clean_loop rest cleaned seen
          else clean_loop rest (cleaned ++ [make_record name diet row]) seen
  end.

(** [loadAndCleanData] once the file has been read and parsed. *)
Definition clean_rows (rows : list RawRecord) : list DietRecord :=
  clean_loop rows [] ∅.

Record Macros := {
  m_Protein_g : float;
  m_Carbs_g : float;
  m_Fat_g : float;
  m_Calories : float;
}.

Record OverallStats := {
  avg_protein : float;
  avg_carbs : float;
  avg_fat : float;
  avg_calories : float;
  max_protein : float;
  max_carbs : float;
  max_fat : float;
  max_calories : float;
}.

Record CalorieEntry := {
  ce_Recipe_name : string;
  ce_Diet_type : string;
  ce_Cuisine_type : string;
  ce_Calories : float;
}.

Record ProteinEntry := {
  pe_Recipe_name : string;
  pe_Diet_type : string;
  pe_Cuisine_type : string;
  pe_Protein_g : float;
}.

Record Stats := {
  total_recipes : nat;
  diet_types : list string;
  cuisine_types : list string;
  recipes_by_diet : JS.object nat;
  recipes_by_cuisine : JS.object nat;
  avg_macros_by_diet : JS.object Macros;
  avg_macros_by_cuisine : JS.object Macros;
  overall_stats : OverallStats;
  top_calorie_recipes : list CalorieEntry;
  high_protein_recipes : list ProteinEntry;
}.

(** [items.length] as a number. *)
Definition length_number {A} (items : list A) : float :=
  JS.of_decimal false (Z.of_nat (length items)) 0.

(** [parseFloat((items.reduce(...) / items.length).toFixed(2))]. *)
Definition average (f : DietRecord → float) (items : list DietRecord) : float :=
  JS.toFixed2 (JS.sum_by f items / length_number items)%float.

Definition average_macros (items : list DietRecord) : Macros :=
  {| m_Protein_g := average Protein_g items;
     m_Carbs_g := average Carbs_g items;
     m_Fat_g := average Fat_g items;
     m_Calories := average Calories items |}.

(** [o[k] = (o[k] || 0) + 1] for each item with a truthy key. *)
Definition count_by (key : DietRecord → string) (data : list DietRecord) : JS.object nat :=
  fold_left (fun o item =>
    if String.eqb (key item) "" then o
    else JS.obj_set (key item) (default 0%nat (JS.obj_get o (key item)) + 1)%nat o) data [].

(** What the function throws: the TypeError of a call whose callee, the
    expression [callee] of the source, is not a function. *)
Inductive TypeError :=
| not_a_function (callee : string).

(** [if (!groups[k]) groups[k] = []; groups[k].push(item)].  Under a name
    that [groups] inherits and has no entry for, the test finds a truthy
    member, nothing is assigned, and the call of its [push], which is
    [undefined], throws. *)
Definition push_item (callee k : string) (item : DietRecord)
    (groups : JS.object (list DietRecord)) : TypeError + JS.object (list DietRecord) :=
  match JS.obj_get groups k with
  | Some items => inr (JS.obj_set k (items ++ [item]) groups)
  | None =>
      if JS.inherited k then inl (not_a_function callee)
      else inr (JS.obj_set k [item] groups)
  end.

(** A grouping loop, [data.forEach(item => { ... })], over the items that
    pass [guard]; a throw ends it. *)
Fixpoint group_items (callee : string) (key : DietRecord → string) (guard : DietRecord → bool)
    (data : list DietRecord) (groups : JS.object (list DietRecord))
    : TypeError + JS.object (list DietRecord) :=
  match data with
  | [] => inr groups
  | item :: rest =>
      if guard item then
        match push_item callee (key item) item groups with
        | inl error => inl error
        | inr groups => group_items callee key guard rest groups
        end
      else group_items callee key guard rest groups
  end.

Definition calculateStatistics (data : list DietRecord) : TypeError + Stats :=
  (* Diet_type is filled from a truthy field, but trimming may leave it
     empty; the diet loops have no guard, the cuisine loops have one.
     The two counting loops do not throw.  Under an inherited name
     [(o[k] || 0) + 1] appends "1" to the text of the member instead of
     counting; that value is never returned, since the grouping loop over
     the same keys then throws. *)
  let recipesByDiet :=
    fold_left (fun o item =>
      JS.obj_set (Diet_type item) (default 0%nat (JS.obj_get o (Diet_type item)) + 1)%nat o)
      data [] in
  let recipesByCuisine := count_by Cuisine_type data in
  let top20Cuisines :=
    fold_left (fun acc kv => JS.obj_set (fst kv) (snd kv) acc)
      (take 20 (JS.Array_sort (fun a b => (snd a <? snd b)%nat) recipesByCuisine)) [] in
  match group_items "dietGroups[item.Diet_type].push" Diet_type (fun _ => true) data [] with
  | inl error => inl error
  | inr dietGroups =>
  let avgMacrosByDiet :=
    fold_left (fun acc kv => JS.obj_set (fst kv) (average_macros (snd kv)) acc) dietGroups [] in
  match group_items "cuisineGroups[item.Cuisine_type].push" Cuisine_type
          (fun item => negb (String.eqb (Cuisine_type item) "")) data [] with
  | inl error => inl error
  | inr cuisineGroups =>
  let avgMacrosByCuisine :=
    fold_left (fun acc kv => JS.obj_set (fst kv) (average_macros (snd kv)) acc) cuisineGroups [] in
  let overallStats :=
    {| avg_protein := average Protein_g data;
       avg_carbs := average Carbs_g data;
       avg_fat := average Fat_g data;
       avg_calories := average Calories data;
       max_protein := JS.toFixed2 (JS.Math_max (Protein_g <$> data));
       max_carbs := JS.toFixed2 (JS.Math_max (Carbs_g <$> data));
       max_fat := JS.toFixed2 (JS.Math_max (Fat_g <$> data));
       max_calories := JS.toFixed2 (JS.Math_max (Calories <$> data)) |} in
  let topCalorieRecipes :=
    (fun item => {| ce_Recipe_name := Recipe_name item;
                    ce_Diet_type := Diet_type item;
                    ce_Cuisine_type := Cuisine_type item;
                    ce_Calories := Calories item |})
    <$> take 10 (JS.Array_sort
                   (fun a b => JS.positive (Calories b - Calories a)%float) data) in
  let highProteinRecipes :=
    (fun item => {| pe_Recipe_name := Recipe_name item;
                    pe_Diet_type := Diet_type item;
                    pe_Cuisine_type := Cuisine_type item;
                    pe_Protein_g := Protein_g item |})
    <$> take 10 (JS.Array_sort
                   (fun a b => JS.positive (Protein_g b - Protein_g a)%float) data) in
  inr {| total_recipes := length data;
         diet_types := JS.sort_strings (JS.Set_elements (Diet_type <$> data));
         cuisine_types :=
           JS.sort_strings
             (JS.Set_elements
                (List.filter (fun c => negb (String.eqb c "")) (Cuisine_type <$> data)));
         recipes_by_diet := recipesByDiet;
         recipes_by_cuisine := top20Cuisines;
         avg_macros_by_diet := avgMacrosByDiet;
         avg_macros_by_cuisine := avgMacrosByCuisine;
         overall_stats := overallStats;
         top_calorie_recipes := topCalorieRecipes;
         high_protein_recipes := highProteinRecipes |}
  end
  end.

(** *** The handler and its cache *)

Definition CACHE_DURATION : Z := 3600000.

(** The module-level variables [cachedStats] and [lastStatsCalcTime]. *)
Record Cache := {
  cachedStats : option Stats;
  lastStatsCalcTime : option Z;
}.

Definition initial : Cache := {| cachedStats := None; lastStatsCalcTime := None |}.

Inductive Response :=
| Json200 (stats : Stats)
| Json404 (error : string)
| Json500 (error : string).

Section Host.
(** [Papa.parse(fileContent, {header: true, skipEmptyLines: true}).data],
    the constant [CSV_FILE_PATH], which depends on the working directory,
    and [error.message], whose wording is the engine's. *)
Variable Papa_parse : string → list RawRecord.
Variable CSV_FILE_PATH : string.
Variable message : TypeError → string.

(** [loadAndCleanData]; [None] when [readFileSync] throws. *)
Definition loadAndCleanData (fs : gmap string File) : option (list DietRecord) :=
  (fun file => clean_rows (Papa_parse (text file))) <$> fs !! CSV_FILE_PATH.

(** [cachedStats && lastStatsCalcTime && (now - lastStatsCalcTime) < CACHE_DURATION]:
    the snapshot to serve from the cache, if any. *)
Definition fresh (now : Z) (c : Cache) : option Stats :=
  match cachedStats c, lastStatsCalcTime c with
  | Some stats, Some last =>
      if negb (last =? 0) && (now - last <? CACHE_DURATION) then Some stats else None
  | _, _ => None
  end.

(** [error.message || 'Internal server error']. *)
Definition message_or_default (error : TypeError) : string :=
  if String.eqb (message error) "" then "Internal server error" else message error.

(** The handler, at time [now = Date.now()]: the response and the cache
    it leaves.  What [calculateStatistics] throws is caught: the answer is
    500 and the two variables are not assigned. *)
Definition GET (now : Z) (fs : gmap string File) (c : Cache) : Response * Cache :=
  match fresh now c with
  | Some stats => (Json200 stats, c)
  | None =>
      if bool_decide (is_Some (fs !! CSV_FILE_PATH)) then
        match loadAndCleanData fs with
        | Some data =>
            match calculateStatistics data with
            | inr stats =>
                (Json200 stats, {| cachedStats := Some stats; lastStatsCalcTime := Some now |})
            | inl error => (Json500 (message_or_default error), c)
            end
        | None => (Json500 "Internal server error", c)
        end
      else (Json404 "Dataset file not found", c)
  end.

End Host.

End Statistics.

(** ** Vocabulary of the statements *)

(** The row has both required fields ([row.Recipe_name] and [row.Diet_type]
    are truthy). *)
Definition required (row : RawRecord) : bool :=
  JS.truthy (raw_Recipe_name row) && JS.truthy (raw_Diet_type row).

(** The key the loops compute for a row with its required fields. *)
Definition row_key (row : RawRecord) : string :=
  dedup_key (default "" (raw_Recipe_name row)) (default "" (raw_Diet_type row)).

(** The row's parsed macros meet or exceed a threshold. *)
Definition row_outlier (row : RawRecord) : bool :=
  is_outlier (parse_macro (raw_Protein_g row)) (parse_macro (raw_Carbs_g row))
    (parse_macro (raw_Fat_g row)).

(** The rows that give a record, when the keys in [seen] were met before. *)
Fixpoint kept (seen : gset string) (rows : list RawRecord) : list RawRecord :=
  match rows with
  | [] => []
  | row :: rest =>
      if negb (required row) then kept seen rest
      else if bool_decide (row_key row ∈ seen) then kept seen rest
      else if row_outlier row then kept ({[row_key row]} ∪ seen) rest
      else row :: kept ({[row_key row]} ∪ seen) rest
  end.

(** The record each route builds from a row it keeps. *)
Definition dataset_record (row : RawRecord) : Dataset.DietRecord :=
  Dataset.make_record (default "" (raw_Recipe_name row)) (default "" (raw_Diet_type row)) row.

Definition statistics_record (row : RawRecord) : Statistics.DietRecord :=
  Statistics.make_record (default "" (raw_Recipe_name row)) (default "" (raw_Diet_type row)) row.

(** The rows of [l] with the key of [row]. *)
Definition with_key_of (row : RawRecord) (l : list RawRecord) : list RawRecord :=
  List.filter (fun r => String.eqb (row_key r) (row_key row)) l.

(** The pair a cleaned record stores. *)
Definition stored_pair (r : Dataset.DietRecord) : string * string :=
  (Dataset.Recipe_name r, Dataset.Diet_type r).

(** All the filters of the dataset handler at once: the records that every
    filter present in the request lets through. *)
Definition matches (searchParams : list (string * string)) (item : Dataset.DietRecord) : bool :=
  let text_of name := (fun s => JS.trim (JS.toLowerCase s)) <$> Dataset.get searchParams name in
  let bound name := Dataset.get searchParams name in
  let lower name (x : float) :=
    negb (JS.truthy (bound name)) || JS.ge x (JS.parseFloat_opt (bound name)) in
  let upper name (x : float) :=
    negb (JS.truthy (bound name)) || JS.le x (JS.parseFloat_opt (bound name)) in
  (negb (JS.truthy (text_of "diet_type"))
   || String.eqb (Dataset.Diet_type item) (default "" (text_of "diet_type")))
  && (negb (JS.truthy (text_of "cuisine_type"))
      || String.eqb (Dataset.Cuisine_type item) (default "" (text_of "cuisine_type")))
  && (negb (JS.truthy (text_of "search"))
      || JS.includes (Dataset.Recipe_name_search item) (default "" (text_of "search")))
  && lower "min_protein" (Dataset.Protein_g item)
  && upper "max_protein" (Dataset.Protein_g item)
  && lower "min_carbs" (Dataset.Carbs_g item)
  && upper "max_carbs" (Dataset.Carbs_g item)
  && lower "min_fat" (Dataset.Fat_g item)
  && upper "max_fat" (Dataset.Fat_g item)
  && lower "min_calories" (JS.or_zero (Dataset.Calories item))
  && upper "max_calories" (JS.or_zero (Dataset.Calories item)).

(** The field the request sorts by, if it names one. *)
Definition sort_field (searchParams : list (string * string)) : option Dataset.Field :=
  let sortBy := JS.toLowerCase <$> Dataset.get searchParams "sort_by" in
  if JS.truthy sortBy then Dataset.sortFieldMap (default "" sortBy) else None.

(** The order in which the handler returns the records [l]. *)
Definition sorted (localeCompare : string → string → float)
    (searchParams : list (string * string)) (l : list Dataset.DietRecord)
    : list Dataset.DietRecord :=
  let sortOrder :=
    default "asc" (Dataset.or_null (JS.toLowerCase <$> Dataset.get searchParams "sort_order")) in
  match sort_field searchParams with
  | Some field =>
      JS.Array_sort
        (fun a b => JS.positive (Dataset.compare localeCompare field sortOrder a b)) l
  | None => l
  end.

(** The request applies at least one filter, so that [data] no longer refers
    to the array [loadData] returned. *)
Definition filters (searchParams : list (string * string)) : bool :=
  let text_of name := (fun s => JS.trim (JS.toLowerCase s)) <$> Dataset.get searchParams name in
  let bound name := Dataset.get searchParams name in
  JS.truthy (text_of "diet_type") || JS.truthy (text_of "cuisine_type")
  || JS.truthy (text_of "search")
  || JS.truthy (bound "min_protein") || JS.truthy (bound "max_protein")
  || JS.truthy (bound "min_carbs") || JS.truthy (bound "max_carbs")
  || JS.truthy (bound "min_fat") || JS.truthy (bound "max_fat")
  || JS.truthy (bound "min_calories") || JS.truthy (bound "max_calories").

(** The query parameters the dataset handler reads. *)
Definition query_names : list string :=
  ["diet_type"; "cuisine_type"; "search"; "min_protein"; "max_protein"; "min_carbs";
   "max_carbs"; "min_fat"; "max_fat"; "min_calories"; "max_calories"; "sort_by";
   "sort_order"].

(** The recipe names of a successful dataset response, in order. *)
Definition names_of (r : Dataset.Response) : option (list string) :=
  match r with
  | Dataset.Json200 body => Some (Dataset.v_Recipe_name <$> Dataset.data body)
  | Dataset.Json500 _ => None
  end.

(** The module variables of the dataset route, the store apart. *)
Definition same_variables (g g' : Dataset.Globals) : Prop :=
  Dataset.cachedData g' = Dataset.cachedData g
  ∧ Dataset.lastFileModTime g' = Dataset.lastFileModTime g
  ∧ Dataset.CSV_FILE_PATH g' = Dataset.CSV_FILE_PATH g
  ∧ Dataset.fileReads g' = Dataset.fileReads g.

(** What the filters have done so far, between the state [g0] in which
    [data0] was loaded and the state [g] in which [data] is the current
    array: [data] holds the records of [data0] that pass [q]; it is [data0]
    itself until a filter is [used], a younger array afterwards; the arrays
    of [g0] are as they were. *)
Definition tracked (g0 : Dataset.Globals) (data0 : Dataset.ref)
    (q : Dataset.DietRecord → bool) (used : bool)
    (data : Dataset.ref) (g : Dataset.Globals) : Prop :=
  Dataset.deref g data = List.filter q (Dataset.deref g0 data0)
  ∧ same_variables g0 g
  ∧ (Dataset.next_ref g0 ≤ Dataset.next_ref g)%nat
  ∧ (∀ r, (r < Dataset.next_ref g0)%nat → Dataset.heap g !! r = Dataset.heap g0 !! r)
  ∧ (if used then (Dataset.next_ref g0 ≤ data)%nat else data = data0).

(** The states the route can be in: references in use are allocated. *)
Definition well_formed (g : Dataset.Globals) : Prop :=
  ∀ c, Dataset.cachedData g = Some c → (c < Dataset.next_ref g)%nat.

(** The recipe names of the array [loadData] returned, in order. *)
Definition loaded_names (res : (string + Dataset.ref) * Dataset.Globals) : option (list string) :=
  match res.1 with
  | inr data => Some (Dataset.Recipe_name <$> Dataset.deref res.2 data)
  | inl _ => None
  end.

(** The [total_recipes] of a successful statistics response. *)
Definition recipes_of (r : Statistics.Response) : option nat :=
  match r with
  | Statistics.Json200 stats => Some (Statistics.total_recipes stats)
  | _ => None
  end.

(** The numeric range bounds a request may carry. *)
Definition bound_names : list string :=
  ["min_protein"; "max_protein"; "min_carbs"; "max_carbs"; "min_fat"; "max_fat";
   "min_calories"; "max_calories"].

(** The recipe names of the cached dataset, in order. *)
Definition cached_names (g : Dataset.Globals) : option (list string) :=
  (fun l : list Dataset.DietRecord => Dataset.Recipe_name <$> l) <$> Dataset.cached_array g.

(** The page the specification describes: [per_page] clamped to [1, 100],
    then the slice [(page-1)*per_page, page*per_page) of the sequence. *)
Definition claimed_page {A} (page per_page : Z) (l : list A) : list A :=
  let per_page := Z.max 1 (Z.min 100 per_page) in
  take (Z.to_nat per_page) (drop (Z.to_nat ((page - 1) * per_page)) l).

(** The cached snapshot is not served any more at time [now]: there is
    none, or its time is missing or zero, or it is an hour old. *)
Definition expired (now : Z) (c : Statistics.Cache) : Prop :=
  Statistics.cachedStats c = None
  ∨ Statistics.lastStatsCalcTime c = None
  ∨ Statistics.lastStatsCalcTime c = Some 0
  ∨ ∃ last, Statistics.lastStatsCalcTime c = Some last
            ∧ Statistics.CACHE_DURATION ≤ now - last.

(** The snapshot was computed from one text of the source file. *)
Definition snapshot_of (Papa_parse : string → list RawRecord) (stats : Statistics.Stats) : Prop :=
  ∃ text,
    Statistics.calculateStatistics (Statistics.clean_rows (Papa_parse text)) = inr stats.

(** The [total_recipes] of the statistics a calculation returns. *)
Definition total_of (r : Statistics.TypeError + Statistics.Stats) : option nat :=
  match r with
  | inr stats => Some (Statistics.total_recipes stats)
  | inl _ => None
  end.

(** No record has a diet or a cuisine that names an inherited member. *)
Definition plain_keys (data : list Statistics.DietRecord) : bool :=
  forallb (fun item => negb (JS.inherited (Statistics.Diet_type item))
                       && negb (JS.inherited (Statistics.Cuisine_type item))) data.

(** No entry of the dictionary is under an inherited name. *)
Definition plain_object {V} (o : JS.object V) : Prop :=
  ∀ k, JS.inherited k = true → JS.obj_get o k = None.

(** The cuisines of the dataset that are not empty, each once. *)
Definition cuisines_of (data : list Statistics.DietRecord) (cuisines : list string) : Prop :=
  NoDup cuisines
  ∧ ∀ k, k ∈ cuisines ↔ k ≠ "" ∧ ∃ item, item ∈ data ∧ Statistics.Cuisine_type item = k.

(** The characters [trim] keeps. *)
Definition trimmed (l : list ascii) : list ascii :=
  rev (JS.trimStart_chars (rev (JS.trimStart_chars l))).

(** The records of one diet, and of one cuisine, in dataset order. *)
Definition with_diet (k : string) (data : list Statistics.DietRecord)
    : list Statistics.DietRecord :=
  List.filter (fun item => String.eqb (Statistics.Diet_type item) k) data.

Definition with_cuisine (k : string) (data : list Statistics.DietRecord)
    : list Statistics.DietRecord :=
  List.filter (fun item => String.eqb (Statistics.Cuisine_type item) k) data.

(** What a dictionary built from groups holds for a group: nothing when the
    group is empty. *)
Definition for_group {A V} (f : list A → V) (group : list A) : option V :=
  match group with
  | [] => None
  | _ => Some (f group)
  end.

(** Not after: the order [l.sort()] puts strings in. *)
Definition not_after (a b : string) : Prop := String.ltb b a = false.

(** The next [loadData] on the files [fs] will be served by the cache,
    with the array [data]. *)
Definition hits (fs : gmap string File) (data : Dataset.ref) (g : Dataset.Globals) : Prop :=
  ∃ p file,
    Dataset.CSV_FILE_PATH g = Some p
    ∧ JS.truthy (Some p) = true
    ∧ fs !! p = Some file
    ∧ Dataset.cachedData g = Some data
    ∧ Dataset.same_time (Dataset.lastFileModTime g) (mtimeMs file) = true.

(** The response is a success. *)
Definition succeeded (r : Dataset.Response) : bool :=
  match r with
  | Dataset.Json200 _ => true
  | Dataset.Json500 _ => false
  end.

(** ** A host to run the routes on *)
Module Host.

(** The text of a file given by its lines, each ended by LF. *)
Definition LF : string := String (ascii_of_N 10) EmptyString.

Definition unlines (ls : list string) : string :=
  fold_right (fun l acc => String.append l (String.append LF acc)) "" ls.

Fixpoint split_on (sep : ascii) (l cur : list ascii) : list string :=
  match l with
  | [] => [JS.str (rev cur)]
  | c :: l' =>
      if Ascii.eqb c sep then JS.str (rev cur) :: split_on sep l' []
      else split_on sep l' (c :: cur)
  end.

Definition split (sep : ascii) (s : string) : list string := split_on sep (JS.chars s) [].

Fixpoint index_of (name : string) (header : list string) : option nat :=
  match header with
  | [] => None
  | h :: header' => if String.eqb h name then Some 0%nat else S <$> index_of name header'
  end.

Definition column (header fields : list string) (name : string) : option string :=
  match index_of name header with
  | Some i => fields !! i
  | None => None
  end.

(** [Papa.parse(text, {header: true, skipEmptyLines: true}).data] on the
    texts used below: comma-separated fields without quotes, lines ended
    by LF, the first line naming the columns. *)
Definition Papa_parse (text : string) : list RawRecord :=
  match List.filter (fun l => negb (String.eqb l "")) (split (ascii_of_N 10) text) with
  | [] => []
  | head :: lines =>
      let header := split "," head in
      (fun line =>
         let fields := split "," line in
         {| raw_Recipe_name := column header fields "Recipe_name";
            raw_Diet_type := column header fields "Diet_type";
            raw_Cuisine_type := column header fields "Cuisine_type";
            raw_Protein_g := column header fields "Protein(g)";
            raw_Carbs_g := column header fields "Carbs(g)";
            raw_Fat_g := column header fields "Fat(g)" |}) <$> lines
  end.

(** [a.localeCompare(b)] on strings of lower-case letters, where it is the
    alphabetical order. *)
Definition localeCompare (a b : string) : float :=
  match String.compare a b with
  | Lt => (-1)%float
  | Eq => 0%float
  | Gt => 1%float
  end.

Definition csvPath : string := "/app/backend/data/All_Diets.csv".
Definition localPath : string := "/srv/backend/data/All_Diets.csv".

Definition header : string := "Recipe_name,Diet_type,Cuisine_type,Protein(g),Carbs(g),Fat(g)".

(** A file system holding the dataset file only. *)
Definition disk (mtime : float) (lines : list string) : gmap string File :=
  {[ csvPath := {| mtimeMs := mtime; text := unlines (header :: lines) |} ]}.

Definition row (name diet cuisine protein carbs fat : string) : RawRecord :=
  {| raw_Recipe_name := Some name; raw_Diet_type := Some diet;
     raw_Cuisine_type := Some cuisine; raw_Protein_g := Some protein;
     raw_Carbs_g := Some carbs; raw_Fat_g := Some fat |}.

Definition GET := Dataset.GET Papa_parse localeCompare localPath.
Definition loadData := Dataset.loadData Papa_parse localPath.
Definition serve := Dataset.serve Papa_parse localeCompare localPath.

(** [error.message] in V8's wording. *)
Definition message (error : Statistics.TypeError) : string :=
  match error with
  | Statistics.not_a_function callee => String.append callee " is not a function"
  end.

Definition statistics := Statistics.GET Papa_parse csvPath message.

(** Two recipes, written at time 1000; the same text written again at
    time 2000; and another text with the modification time 1000. *)
Definition menu : list string := ["hi,keto,thai,9,1,1"; "lo,paleo,thai,1,1,1"].
Definition menu_disk : gmap string File := disk 1000 menu.
Definition menu_rewritten : gmap string File := disk 2000 menu.
Definition other_menu_disk : gmap string File := disk 1000 ["new,vegan,thai,3,3,3"].

(** The records of the statistics route for [menu]; and a source with a
    recipe whose diet is called constructor. *)
Definition menu_data : list Statistics.DietRecord :=
  Statistics.clean_rows (Papa_parse (unlines (header :: menu))).
Definition odd_menu_disk : gmap string File :=
  disk 1000 ["hi,keto,thai,9,1,1"; "odd,Constructor,thai,1,1,1"].

(** The module state after a first request without parameters. *)
Definition loaded : Dataset.Globals := (GET menu_disk [] Dataset.initial).2.

(** No dataset file at all; one at the second path only; one at each path. *)
Definition no_disk : gmap string File := ∅.
Definition local_disk : gmap string File :=
  {[ localPath := {| mtimeMs := 500; text := unlines [header; "old,keto,thai,2,2,2"] |} ]}.
Definition both_disks : gmap string File := menu_disk ∪ local_disk.

End Host.

(** ** The cleaning loops *)

Section Cleaning.
Implicit Types (row : RawRecord) (rows : list RawRecord) (seen : gset string).

(** Both loops push one record per kept row, in order. *)
Lemma dataset_loop_kept rows : ∀ cleaned seen,
  Dataset.clean_loop rows cleaned seen = cleaned ++ (dataset_record <$> kept seen rows).
Proof.
  induction rows as [|row rest IH]; intros cleaned seen; simpl.
  - by rewrite app_nil_r.
  - unfold required. rewrite negb_andb.
    destruct (negb _ || negb _); [apply IH|].
    fold (row_key row). destruct (bool_decide _); [apply IH|].
    fold (row_outlier row). destruct (row_outlier row); [apply IH|].
    rewrite IH, fmap_cons, <- app_assoc. reflexivity.
Qed.

Lemma statistics_loop_kept rows : ∀ cleaned seen,
  Statistics.clean_loop rows cleaned seen = cleaned ++ (statistics_record <$> kept seen rows).
Proof.
  induction rows as [|row rest IH]; intros cleaned seen; simpl.
  - by rewrite app_nil_r.
  - unfold required. rewrite negb_andb.
    destruct (negb _ || negb _); [apply IH|].
    fold (row_key row). destruct (bool_decide _); [apply IH|].
    fold (row_outlier row). destruct (row_outlier row); [apply IH|].
    rewrite IH, fmap_cons, <- app_assoc. reflexivity.
Qed.

Lemma cleanDataset_kept rows :
  Dataset.cleanDataset rows = dataset_record <$> kept ∅ rows.
Proof. unfold Dataset.cleanDataset. by rewrite dataset_loop_kept. Qed.

Lemma clean_rows_kept rows :
  Statistics.clean_rows rows = statistics_record <$> kept ∅ rows.
Proof. unfold Statistics.clean_rows. by rewrite statistics_loop_kept. Qed.

(** The kept rows are input rows, in input order. *)
Lemma kept_sublist rows : ∀ seen, kept seen rows `sublist_of` rows.
Proof.
  induction rows as [|row rest IH]; intros seen; simpl; [constructor|].
  repeat case_match; try (apply sublist_cons_r; left; apply IH).
  apply sublist_skip, IH.
Qed.

(** Each has its required fields, is below the thresholds, and has a key
    that was not seen before. *)
Lemma kept_Forall rows : ∀ seen,
  Forall (fun row => required row = true ∧ row_outlier row = false ∧ row_key row ∉ seen)
    (kept seen rows).
Proof.
  induction rows as [|row rest IH]; intros seen; simpl; [constructor|].
  destruct (required row) eqn:Hreq; simpl; [|apply IH].
  case_bool_decide as Hseen; [apply IH|].
  assert (Hmono : Forall (fun r => required r = true ∧ row_outlier r = false ∧ row_key r ∉ seen)
                    (kept ({[row_key row]} ∪ seen) rest)).
  { eapply Forall_impl; [apply IH|]. intros r (? & ? & Hr). set_solver. }
  destruct (row_outlier row) eqn:Hout; [exact Hmono|].
  constructor; [done | exact Hmono].
Qed.

(** No key is kept twice. *)
Lemma kept_NoDup rows : ∀ seen, NoDup (row_key <$> kept seen rows).
Proof.
  induction rows as [|row rest IH]; intros seen; simpl; [constructor|].
  repeat case_match; try apply IH.
  rewrite fmap_cons. constructor; [|apply IH].
  intros (r & Hk & Hr)%list_elem_of_fmap.
  pose proof (kept_Forall rest ({[row_key row]} ∪ seen)) as HF.
  rewrite Forall_forall in HF. destruct (HF r Hr) as (_ & _ & Hnot).
  apply Hnot, elem_of_union_l, elem_of_singleton. by symmetry.
Qed.

Lemma with_key_of_seen row rows seen :
  row_key row ∈ seen → with_key_of row (kept seen rows) = [].
Proof.
  intros Hin. pose proof (kept_Forall rows seen) as HF.
  unfold with_key_of. induction HF as [|r l (_ & _ & Hr) _ IH]; [done|]; simpl.
  destruct (String.eqb_spec (row_key r) (row_key row)) as [Heq|]; [|exact IH].
  rewrite Heq in Hr. done.
Qed.

(** A row whose key appears for the first time decides alone what becomes
    of that key: one record, from that row, or none when it is an outlier. *)
Lemma kept_first pre row post : ∀ seen,
  required row = true →
  row_key row ∉ seen →
  (∀ r, r ∈ pre → required r = true → row_key r ≠ row_key row) →
  with_key_of row (kept seen (pre ++ row :: post))
  = if row_outlier row then [] else [row].
Proof.
  induction pre as [|r pre IH]; intros seen Hreq Hseen Hpre; simpl.
  - rewrite Hreq; simpl. rewrite bool_decide_eq_false_2 by done.
    destruct (row_outlier row).
    + apply with_key_of_seen. set_solver.
    + unfold with_key_of at 1; simpl. rewrite String.eqb_refl. f_equal.
      apply with_key_of_seen. set_solver.
  - assert (Hrest : ∀ r', r' ∈ pre → required r' = true → row_key r' ≠ row_key row).
    { intros r' Hr'. apply Hpre. by right. }
    destruct (required r) eqn:Hr; simpl; [|by apply IH].
    assert (Hne : row_key r ≠ row_key row) by (apply Hpre; [left|done]).
    case_bool_decide; [by apply IH|].
    assert (Hseen' : row_key row ∉ {[row_key r]} ∪ seen).
    { rewrite not_elem_of_union, not_elem_of_singleton. split; [congruence|done]. }
    destruct (row_outlier r); [by apply IH|].
    unfold with_key_of at 1; simpl.
    destruct (String.eqb_spec (row_key r) (row_key row)); [done|].
    by apply IH.
Qed.

(** Rows with the same raw pair have the same key. *)
Lemma same_pair_same_key (r1 r2 : RawRecord) :
  raw_Recipe_name r1 = raw_Recipe_name r2 → raw_Diet_type r1 = raw_Diet_type r2 →
  row_key r1 = row_key r2.
Proof. unfold row_key. by intros -> ->. Qed.

End Cleaning.

(** ** Properties of the cleaned output *)

(** C7 (as the code has it).  For every raw input, the cleaned output is
    built, in input order, from a subsequence of the input rows in which no
    dedup key (hence no raw [(Recipe_name, Diet_type)] pair) occurs twice; and
    for every row whose key occurs there for the first time, the output has
    exactly one record for that key, built from that row, unless the row is
    an outlier, in which case it has none. *)
Theorem cleanDataset_first_occurrence_wins (rawData : list RawRecord) :
  ∃ keptRows,
    Dataset.cleanDataset rawData = dataset_record <$> keptRows
    ∧ keptRows `sublist_of` rawData
    ∧ NoDup (row_key <$> keptRows)
    ∧ ∀ pre row post,
        rawData = pre ++ row :: post →
        required row = true →
        (∀ r, r ∈ pre → required r = true → row_key r ≠ row_key row) →
        with_key_of row keptRows = if row_outlier row then [] else [row].
Proof.
  exists (kept ∅ rawData). split; [apply cleanDataset_kept|].
  split; [apply kept_sublist|]. split; [apply kept_NoDup|].
  intros pre row post -> Hreq Hfirst. apply kept_first; [done | set_solver | done].
Qed.

(** C7, as stated, fails.  Two rows whose pairs differ only by case give two
    records that store the same pair; and a pair whose first row is an
    outlier is left with no record at all, although a later row carries it. *)
Lemma cleanDataset_stored_pair_repeated :
  stored_pair <$> Dataset.cleanDataset
    [Host.row "Salad" "Keto" "greek" "10" "10" "10";
     Host.row "Salad" "keto" "greek" "20" "20" "20"]
  = [("Salad", "keto"); ("Salad", "keto")]
  ∧ Dataset.cleanDataset
      [Host.row "Stew" "paleo" "irish" "2500" "1" "1";
       Host.row "Stew" "paleo" "irish" "10" "10" "10"]
    = [].
Proof. split; vm_compute; reflexivity. Qed.

(** The first of two identical rows gives the record, with its derived
    fields; the row whose carbs reach the threshold gives none. *)
Example cleanDataset_first_of_two :
  Dataset.cleanDataset
    [Host.row "A" "paleo" "" "10" "10" "10"; Host.row "A" "paleo" "" "10" "10" "10";
     Host.row "B" "keto" "" "5" "3000" "5"]
  = [{| Dataset.Recipe_name := "A"; Dataset.Diet_type := "paleo"; Dataset.Cuisine_type := "";
        Dataset.Protein_g := 10; Dataset.Carbs_g := 10; Dataset.Fat_g := 10;
        Dataset.Calories := 170; Dataset.Total_macros := 30;
        Dataset.Recipe_name_search := "a" |}].
Proof. vm_compute. reflexivity. Qed.

(** C8.  No row whose parsed protein, carbs or fat meets or exceeds its
    threshold gives a record: the cleaned output is built from rows that are
    all below the three thresholds, and so are the records themselves. *)
Theorem cleanDataset_rejects_outliers (rawData : list RawRecord) :
  ∃ keptRows,
    Dataset.cleanDataset rawData = dataset_record <$> keptRows
    ∧ keptRows `sublist_of` rawData
    ∧ (∀ row,
         JS.ge (parse_macro (raw_Protein_g row)) 2000%float = true
         ∨ JS.ge (parse_macro (raw_Carbs_g row)) 3000%float = true
         ∨ JS.ge (parse_macro (raw_Fat_g row)) 2000%float = true →
         row ∉ keptRows)
    ∧ Forall (fun r =>
                JS.ge (Dataset.Protein_g r) 2000%float = false
                ∧ JS.ge (Dataset.Carbs_g r) 3000%float = false
                ∧ JS.ge (Dataset.Fat_g r) 2000%float = false)
        (Dataset.cleanDataset rawData).
Proof.
  exists (kept ∅ rawData). split; [apply cleanDataset_kept|].
  split; [apply kept_sublist|].
  pose proof (kept_Forall rawData ∅) as HF. rewrite Forall_forall in HF. split.
  - intros row Hge Hin. destruct (HF row Hin) as (_ & Hout & _).
    unfold row_outlier, is_outlier in Hout.
    apply orb_false_elim in Hout as [[Hp Hc]%orb_false_elim Hf].
    destruct Hge as [H|[H|H]]; congruence.
  - rewrite cleanDataset_kept, Forall_fmap, Forall_forall. intros row Hin.
    destruct (HF row Hin) as (_ & Hout & _).
    unfold row_outlier, is_outlier in Hout.
    apply orb_false_elim in Hout as [[Hp Hc]%orb_false_elim Hf]. done.
Qed.

(** The thresholds themselves are rejected, the values just below are not. *)
Example cleanDataset_threshold_met :
  Dataset.cleanDataset
    [Host.row "a" "keto" "" "2000" "0" "0"; Host.row "b" "keto" "" "0" "3000" "0";
     Host.row "c" "keto" "" "0" "0" "2000"; Host.row "d" "keto" "" "x" "2999.9" "1999.9"]
  = [dataset_record (Host.row "d" "keto" "" "x" "2999.9" "1999.9")].
Proof. vm_compute. reflexivity. Qed.

(** C9.  Every record of the cleaned output carries the calories and the
    total of its own macros, computed as the code computes them; so does
    every record the statistics route cleans, for the calories. *)
Theorem cleaned_derived_fields (rawData : list RawRecord) :
  Forall (fun r =>
            Dataset.Calories r
            = (Dataset.Protein_g r * 4 + Dataset.Carbs_g r * 4 + Dataset.Fat_g r * 9)%float
            ∧ Dataset.Total_macros r
              = (Dataset.Protein_g r + Dataset.Carbs_g r + Dataset.Fat_g r)%float)
    (Dataset.cleanDataset rawData)
  ∧ Forall (fun r =>
              Statistics.Calories r
              = (Statistics.Protein_g r * 4 + Statistics.Carbs_g r * 4
                 + Statistics.Fat_g r * 9)%float)
      (Statistics.clean_rows rawData).
Proof.
  rewrite cleanDataset_kept, clean_rows_kept. split.
  - rewrite Forall_fmap. apply Forall_true. intros row. by split.
  - rewrite Forall_fmap. by apply Forall_true.
Qed.

(** C10.  On every raw input the two cleaning loops give sequences of the
    same length that agree, position by position, on the seven fields they
    share. *)
Theorem cleaning_paths_agree (rawData : list RawRecord) :
  length (Dataset.cleanDataset rawData) = length (Statistics.clean_rows rawData)
  ∧ ∀ i a b,
      Dataset.cleanDataset rawData !! i = Some a →
      Statistics.clean_rows rawData !! i = Some b →
      Dataset.Recipe_name a = Statistics.Recipe_name b
      ∧ Dataset.Diet_type a = Statistics.Diet_type b
      ∧ Dataset.Cuisine_type a = Statistics.Cuisine_type b
      ∧ Dataset.Protein_g a = Statistics.Protein_g b
      ∧ Dataset.Carbs_g a = Statistics.Carbs_g b
      ∧ Dataset.Fat_g a = Statistics.Fat_g b
      ∧ Dataset.Calories a = Statistics.Calories b.
Proof.
  rewrite cleanDataset_kept, clean_rows_kept. split.
  - by rewrite !length_fmap.
  - intros i a b Ha Hb. rewrite list_lookup_fmap in Ha. rewrite list_lookup_fmap in Hb.
    destruct (kept ∅ rawData !! i) as [row|]; [|done].
    simpl in Ha, Hb. injection Ha as <-. injection Hb as <-. by repeat split.
Qed.

(** ** The dataset handler *)

Section Handler.
Variable Papa_parse : string → list RawRecord.
Variable localeCompare : string → string → float.
Variable localPath : string.

Implicit Types (g : Dataset.Globals) (data : Dataset.ref)
  (searchParams : list (string * string)) (l : list Dataset.DietRecord).

Lemma filter_all {A} (l : list A) : List.filter (fun _ => true) l = l.
Proof. induction l as [|x l IH]; simpl; congruence. Qed.

Lemma filter_twice {A} (p q : A → bool) (l : list A) :
  List.filter q (List.filter p l) = List.filter (fun x => p x && q x) l.
Proof.
  induction l as [|x l IH]; simpl; [done|].
  destruct (p x); simpl; [destruct (q x)|]; congruence.
Qed.

Lemma sort_insert_length {A} (gt : A → A → bool) x (l : list A) :
  length (JS.sort_insert gt x l) = S (length l).
Proof. induction l as [|y l IH]; simpl; [done|]. destruct (gt x y); simpl; congruence. Qed.

Lemma Array_sort_length {A} (gt : A → A → bool) (l : list A) :
  length (JS.Array_sort gt l) = length l.
Proof.
  induction l as [|x l IH]; simpl; [done|]. by rewrite sort_insert_length, IH.
Qed.

Lemma sorted_length searchParams l :
  length (sorted localeCompare searchParams l) = length l.
Proof. unfold sorted. destruct (sort_field _); [apply Array_sort_length | done]. Qed.

Lemma same_variables_refl g : same_variables g g.
Proof. by repeat split. Qed.

Lemma tracked_start g0 data0 : tracked g0 data0 (fun _ => true) false data0 g0.
Proof.
  split; [by rewrite filter_all|]. split; [apply same_variables_refl|]. by repeat split.
Qed.

(** One [if (cond) data = data.filter(p)]. *)
Lemma tracked_filter_if g0 data0 q used data g cond p :
  tracked g0 data0 q used data g →
  tracked g0 data0 (fun x => q x && (negb cond || p x)) (used || cond)
    (Dataset.filter_if cond p data g).1 (Dataset.filter_if cond p data g).2.
Proof.
  intros (Hdata & Hvars & Hnext & Hheap & Hpos). destruct cond; unfold tracked; simpl.
  - split.
    { unfold Dataset.deref at 1; simpl. rewrite lookup_insert_eq; simpl.
      by rewrite Hdata, filter_twice. }
    split; [exact Hvars|]. split; [lia|]. split.
    { intros r Hr. rewrite lookup_insert_ne by lia. by apply Hheap. }
    by rewrite orb_true_r.
  - split.
    { rewrite Hdata. apply List.filter_ext. intros x. by rewrite andb_true_r. }
    split; [exact Hvars|]. split; [exact Hnext|]. split; [exact Hheap|].
    by rewrite orb_false_r.
Qed.

(** Runs the next filter of the goal under the invariant [H]. *)
Ltac next_filter H :=
  match goal with
  | |- context [Dataset.filter_if ?c ?p ?d ?g] =>
      let H' := fresh "H" in
      pose proof (tracked_filter_if _ _ _ _ _ _ c p H) as H';
      destruct (Dataset.filter_if c p d g) as [? ?];
      cbn [fst snd] in H'; clear H; rename H' into H; cbv beta iota
  end.

(** What [filter_and_sort] returns and what it leaves in the store: the
    matching records, in the order asked for; the arrays that existed are
    untouched, except the array [data0] itself when the request sorts
    without filtering. *)
Lemma filter_and_sort_spec searchParams data0 g0 :
  ∃ r g',
    Dataset.filter_and_sort localeCompare searchParams data0 g0 = (r, g')
    ∧ Dataset.deref g' r
      = sorted localeCompare searchParams
          (List.filter (matches searchParams) (Dataset.deref g0 data0))
    ∧ same_variables g0 g'
    ∧ (Dataset.next_ref g0 ≤ Dataset.next_ref g')%nat
    ∧ ∀ r0, (r0 < Dataset.next_ref g0)%nat →
        Dataset.deref g' r0
        = if bool_decide (r0 = data0) && negb (filters searchParams)
          then sorted localeCompare searchParams (Dataset.deref g0 r0)
          else Dataset.deref g0 r0.
Proof.
  pose proof (tracked_start g0 data0) as H.
  unfold Dataset.filter_and_sort, Dataset.bind. cbv beta zeta.
  do 11 next_filter H.
  match type of H with tracked _ _ _ _ ?d ?g => rename d into dataN; rename g into gN end.
  destruct H as (Hdata & Hvars & Hnext & Hheap & Hpos).
  assert (Hdata' : Dataset.deref gN dataN
                   = List.filter (matches searchParams) (Dataset.deref g0 data0))
    by exact Hdata.
  assert (Hpos' : if filters searchParams then (Dataset.next_ref g0 ≤ dataN)%nat else dataN = data0)
    by exact Hpos.
  clear Hdata Hpos.
  assert (Hold : ∀ ref0, (ref0 < Dataset.next_ref g0)%nat →
                       Dataset.deref gN ref0 = Dataset.deref g0 ref0).
  { intros ref0 Href0. unfold Dataset.deref. by rewrite Hheap. }
  change (if JS.truthy (JS.toLowerCase <$> Dataset.get searchParams "sort_by")
          then Dataset.sortFieldMap
                 (default "" (JS.toLowerCase <$> Dataset.get searchParams "sort_by"))
          else None)
    with (sort_field searchParams).
  unfold sorted. cbv zeta. destruct (sort_field searchParams) as [field|].
  - eexists _, _. split; [reflexivity|]. cbn [Dataset.next_ref]. split.
    { unfold Dataset.deref at 1. cbn [Dataset.heap].
      rewrite lookup_insert_eq. cbn [default]. by rewrite Hdata'. }
    split; [exact Hvars|]. split; [exact Hnext|].
    intros ref0 Href0. unfold Dataset.deref at 1. cbn [Dataset.heap].
    destruct (filters searchParams); cbn [negb].
    + rewrite andb_false_r, lookup_insert_ne by lia. by apply Hold.
    + subst dataN. rewrite andb_true_r. case_bool_decide as Heq.
      * subst ref0. rewrite lookup_insert_eq. cbn [default]. by rewrite Hold.
      * rewrite lookup_insert_ne by done. by apply Hold.
  - eexists _, _. split; [reflexivity|]. split; [exact Hdata'|].
    split; [exact Hvars|]. split; [exact Hnext|].
    intros ref0 Href0. rewrite Hold by done. by destruct (_ && _).
Qed.

(** *** [loadData] *)

(** C3 (as the code has it).  With a dataset in the cache, [loadData]
    decides on the modification time alone: when it equals the recorded
    one, the cached array is returned and nothing is read, whatever the
    file holds; otherwise the file is read and the dataset is computed
    again from what it holds now. *)
Theorem loadData_checks_modification_time fs g p file cached :
  Dataset.CSV_FILE_PATH g = Some p →
  JS.truthy (Some p) = true →
  fs !! p = Some file →
  Dataset.cachedData g = Some cached →
  if Dataset.same_time (Dataset.lastFileModTime g) (mtimeMs file)
  then Dataset.loadData Papa_parse localPath fs g = (inr cached, g)
  else ∃ data g',
      Dataset.loadData Papa_parse localPath fs g = (inr data, g')
      ∧ Dataset.deref g' data = Dataset.cleanDataset (Papa_parse (text file))
      ∧ Dataset.cachedData g' = Some data
      ∧ Dataset.lastFileModTime g' = Some (mtimeMs file)
      ∧ Dataset.fileReads g' = S (Dataset.fileReads g).
Proof.
  intros Hpath Htruthy Hfile Hcached. unfold Dataset.loadData.
  rewrite Hpath, Htruthy. cbv beta iota zeta. rewrite Hpath.
  change (default "" (Some p)) with p. rewrite Hfile, Hcached.
  destruct (Dataset.same_time _ _); [reflexivity|].
  eexists _, _. split; [reflexivity|]. cbn.
  unfold Dataset.deref; cbn. by rewrite lookup_insert_eq.
Qed.

(** What [loadData] returns is the array the cache holds from then on,
    and it is allocated. *)
Lemma loadData_returns_cache fs g data g1 :
  well_formed g →
  Dataset.loadData Papa_parse localPath fs g = (inr data, g1) →
  Dataset.cachedData g1 = Some data ∧ (data < Dataset.next_ref g1)%nat.
Proof.
  intros Hwf. unfold Dataset.loadData.
  destruct (JS.truthy (Dataset.CSV_FILE_PATH g)).
  - destruct (fs !! _) as [file|]; [|done].
    destruct (Dataset.cachedData g) as [cached|] eqn:Hc.
    + destruct (Dataset.same_time _ _); cbn.
      * intros [= <- <-]. split; [done | by apply Hwf].
      * intros [= <- <-]. cbn. split; [done | lia].
    + cbn. intros [= <- <-]. cbn. split; [done | lia].
  - destruct (Dataset.findCSVPath _ _) as [e|p]; [done|].
    unfold Dataset.set_CSV_FILE_PATH. cbn.
    destruct (fs !! _) as [file|]; [|done].
    destruct (Dataset.cachedData g) as [cached|] eqn:Hc.
    + destruct (Dataset.same_time _ _); cbn.
      * intros [= <- <-]. cbn. split; [done | by apply Hwf].
      * intros [= <- <-]. cbn. split; [done | lia].
    + cbn. intros [= <- <-]. cbn. split; [done | lia].
Qed.

(** *** [GET] *)

(** Once [loadData] has returned [data], the handler answers with all the
    matching records, in the order asked for, and leaves the store as
    [filter_and_sort] left it. *)
Lemma GET_loaded fs searchParams g data g1 :
  Dataset.loadData Papa_parse localPath fs g = (inr data, g1) →
  ∃ g2,
    Dataset.GET Papa_parse localeCompare localPath fs searchParams g
    = (Dataset.Json200
         {| Dataset.data :=
              Dataset.view
              <$> sorted localeCompare searchParams
                    (List.filter (matches searchParams) (Dataset.deref g1 data));
            Dataset.total_items :=
              length (List.filter (matches searchParams) (Dataset.deref g1 data));
            Dataset.filters_applied := Dataset.echo searchParams |}, g2)
    ∧ same_variables g1 g2
    ∧ (Dataset.next_ref g1 ≤ Dataset.next_ref g2)%nat
    ∧ ∀ r0, (r0 < Dataset.next_ref g1)%nat →
        Dataset.deref g2 r0
        = if bool_decide (r0 = data) && negb (filters searchParams)
          then sorted localeCompare searchParams (Dataset.deref g1 r0)
          else Dataset.deref g1 r0.
Proof.
  intros Hload.
  destruct (filter_and_sort_spec searchParams data g1)
    as (r & g2 & Hrun & Hdata & Hvars & Hnext & Hold).
  exists g2. split; [|done].
  unfold Dataset.GET, Dataset.bind. rewrite Hload, Hrun.
  by rewrite Hdata, length_fmap, sorted_length.
Qed.

(** The handler reads the request through the names of [query_names] only. *)
Lemma GET_reads_query_names fs searchParams searchParams' g :
  (∀ name, name ∈ query_names →
           Dataset.get searchParams' name = Dataset.get searchParams name) →
  Dataset.GET Papa_parse localeCompare localPath fs searchParams' g
  = Dataset.GET Papa_parse localeCompare localPath fs searchParams g.
Proof.
  intros H. unfold Dataset.GET, Dataset.filter_and_sort, Dataset.echo.
  rewrite !(H "diet_type"), !(H "cuisine_type"), !(H "search"), !(H "min_protein"),
    !(H "max_protein"), !(H "min_carbs"), !(H "max_carbs"), !(H "min_fat"),
    !(H "max_fat"), !(H "min_calories"), !(H "max_calories"), !(H "sort_by"),
    !(H "sort_order") by (unfold query_names; repeat constructor).
  reflexivity.
Qed.

(** A failed [loadData] leaves the cache and the store alone. *)
Lemma loadData_error fs g message g1 :
  Dataset.loadData Papa_parse localPath fs g = (inl message, g1) →
  Dataset.cachedData g1 = Dataset.cachedData g
  ∧ Dataset.heap g1 = Dataset.heap g
  ∧ Dataset.next_ref g1 = Dataset.next_ref g.
Proof.
  unfold Dataset.loadData.
  destruct (JS.truthy (Dataset.CSV_FILE_PATH g)).
  - destruct (fs !! _) as [file|]; [|by intros [= <- <-]].
    destruct (Dataset.cachedData g); [destruct (Dataset.same_time _ _)|]; done.
  - destruct (Dataset.findCSVPath _ _) as [e|p]; [by intros [= <- <-]|].
    unfold Dataset.set_CSV_FILE_PATH. cbn.
    destruct (fs !! _) as [file|]; [|by intros [= <- <-]].
    destruct (Dataset.cachedData g); [destruct (Dataset.same_time _ _)|]; done.
Qed.

(** The handler keeps the state well formed. *)
Lemma GET_well_formed fs searchParams g :
  well_formed g →
  well_formed (Dataset.GET Papa_parse localeCompare localPath fs searchParams g).2.
Proof.
  intros Hwf.
  destruct (Dataset.loadData Papa_parse localPath fs g) as [[message|data] g1] eqn:Hload.
  - unfold Dataset.GET, Dataset.bind. rewrite Hload. cbn.
    destruct (loadData_error _ _ _ _ Hload) as (Hc & _ & Hn).
    intros c. rewrite Hc, Hn. apply Hwf.
  - destruct (GET_loaded fs searchParams g data g1 Hload)
      as (g2 & -> & (Hc & _) & Hnext & _).
    destruct (loadData_returns_cache fs g data g1 Hwf Hload) as [Hcached Hlt].
    intros c. cbn. rewrite Hc, Hcached. intros [= <-]. lia.
Qed.

(** What a request does to the cached dataset: nothing when it filters;
    otherwise the cached array itself is put in the order asked for. *)
Lemma GET_cached_array fs searchParams g data g1 :
  well_formed g →
  Dataset.loadData Papa_parse localPath fs g = (inr data, g1) →
  Dataset.cached_array
    (Dataset.GET Papa_parse localeCompare localPath fs searchParams g).2
  = if filters searchParams then Dataset.cached_array g1
    else sorted localeCompare searchParams <$> Dataset.cached_array g1.
Proof.
  intros Hwf Hload.
  destruct (GET_loaded fs searchParams g data g1 Hload)
    as (g2 & -> & (Hc & _) & _ & Hold).
  destruct (loadData_returns_cache fs g data g1 Hwf Hload) as [Hcached Hlt].
  unfold Dataset.cached_array. cbn. rewrite Hc, Hcached. cbn.
  rewrite (Hold data Hlt), bool_decide_eq_true_2 by done.
  by destruct (filters searchParams).
Qed.

(** *** Bounds that do not parse *)

Lemma ge_nan x : JS.ge x nan = false.
Proof. unfold JS.ge. rewrite leb_spec. reflexivity. Qed.

Lemma le_nan x : JS.le x nan = false.
Proof.
  unfold JS.le. rewrite leb_spec. change (Prim2SF nan) with S754_nan.
  by destruct (Prim2SF x).
Qed.

(** A bound that is present and parses to NaN lets no record through. *)
Lemma unparsable_bound_matches_nothing searchParams name item :
  name ∈ bound_names →
  JS.truthy (Dataset.get searchParams name) = true →
  JS.parseFloat_opt (Dataset.get searchParams name) = nan →
  matches searchParams item = false.
Proof.
  intros Hname Htruthy Hnan. unfold bound_names in Hname.
  rewrite !elem_of_cons, elem_of_nil in Hname.
  destruct Hname as [->|[->|[->|[->|[->|[->|[->|[->|[]]]]]]]]];
    unfold matches; rewrite Htruthy, Hnan, ?ge_nan, ?le_nan; cbn [negb orb];
    by rewrite ?andb_false_r.
Qed.

Lemma filter_none {A} (p : A → bool) (l : list A) :
  (∀ x, p x = false) → List.filter p l = [].
Proof. intros H. induction l as [|x l IH]; simpl; [done|]. by rewrite H. Qed.

(** So the answer of the handler is empty, whatever the dataset. *)
Lemma GET_unparsable_bound fs searchParams name g data g1 :
  Dataset.loadData Papa_parse localPath fs g = (inr data, g1) →
  name ∈ bound_names →
  JS.truthy (Dataset.get searchParams name) = true →
  JS.parseFloat_opt (Dataset.get searchParams name) = nan →
  names_of (Dataset.GET Papa_parse localeCompare localPath fs searchParams g).1 = Some [].
Proof.
  intros Hload Hname Htruthy Hnan.
  destruct (GET_loaded fs searchParams g data g1 Hload) as (g2 & -> & _).
  cbn. rewrite filter_none
    by (intros x; by apply (unparsable_bound_matches_nothing _ name)).
  unfold sorted. by destruct (sort_field _).
Qed.

End Handler.

(** ** Properties of the dataset handler *)

Section Requests.
Variable Papa_parse : string → list RawRecord.
Variable localeCompare : string → string → float.
Variable localPath : string.

(** C1 (as the code has it).  Whenever the dataset loads, the handler
    answers with every record that passes the filters, in the order asked
    for, and [total_items] is their number; it reads no other parameter
    than those of [query_names], so that [page] and [per_page], whatever
    their values, change nothing and cause no error. *)
Theorem GET_returns_all_matches fs searchParams g data g1 :
  Dataset.loadData Papa_parse localPath fs g = (inr data, g1) →
  let found := List.filter (matches searchParams) (Dataset.deref g1 data) in
  (Dataset.GET Papa_parse localeCompare localPath fs searchParams g).1
  = Dataset.Json200
      {| Dataset.data := Dataset.view <$> sorted localeCompare searchParams found;
         Dataset.total_items := length found;
         Dataset.filters_applied := Dataset.echo searchParams |}
  ∧ ∀ searchParams',
      (∀ name, name ∈ query_names →
               Dataset.get searchParams' name = Dataset.get searchParams name) →
      (Dataset.GET Papa_parse localeCompare localPath fs searchParams' g).1
      = (Dataset.GET Papa_parse localeCompare localPath fs searchParams g).1.
Proof.
  intros Hload found. split.
  - destruct (GET_loaded Papa_parse localeCompare localPath fs searchParams g data g1 Hload)
      as (g2 & -> & _). reflexivity.
  - intros searchParams' Hsame. by rewrite (GET_reads_query_names _ _ _ _ searchParams).
Qed.

End Requests.

(** The dataset of [Host.menu_disk] loads into the first array. *)
Lemma menu_loads :
  Host.loadData Host.menu_disk Dataset.initial
  = (inr 0%nat, (Host.loadData Host.menu_disk Dataset.initial).2).
Proof. vm_compute. reflexivity. Qed.

(** C1 at work: a request for 100000 records per page is answered like the
    request without parameters, with the whole dataset. *)
Lemma GET_returns_all_matches_witness :
  names_of (Host.GET Host.menu_disk [("per_page", "100000")] Dataset.initial).1
  = Some ["hi"; "lo"]
  ∧ (Host.GET Host.menu_disk [("per_page", "100000")] Dataset.initial).1
    = (Host.GET Host.menu_disk [] Dataset.initial).1.
Proof.
  destruct (GET_returns_all_matches Host.Papa_parse Host.localeCompare Host.localPath
              Host.menu_disk [] Dataset.initial 0%nat _ menu_loads) as [Hall Hsame].
  split.
  - unfold Host.GET. rewrite (Hsame [("per_page", "100000")]).
    + rewrite Hall. vm_compute. reflexivity.
    + intros name Hname. unfold query_names in Hname.
      rewrite !elem_of_cons, elem_of_nil in Hname.
      destruct Hname as [->|[->|[->|[->|[->|[->|[->|[->|[->|[->|[->|[->|[->|[]]]]]]]]]]]]]];
        reflexivity.
  - apply Hsame. intros name Hname. unfold query_names in Hname.
    rewrite !elem_of_cons, elem_of_nil in Hname.
    destruct Hname as [->|[->|[->|[->|[->|[->|[->|[->|[->|[->|[->|[->|[->|[]]]]]]]]]]]]]];
      reflexivity.
Defined.

(** C1, as stated, fails: asked for page 1 with one record per page, the
    handler returns both records, where the slice has one. *)
Lemma GET_ignores_per_page :
  names_of (Host.GET Host.menu_disk [("page", "1"); ("per_page", "1")] Dataset.initial).1
  = Some ["hi"; "lo"]
  ∧ claimed_page 1 1 ["hi"; "lo"] = ["hi"].
Proof. split; vm_compute; reflexivity. Qed.

(** C2 on the code: with [min_protein=abc] the handler returns no record,
    where the same request without the bound returns two. *)
Theorem GET_unparsable_bound_empties :
  names_of (Host.GET Host.menu_disk [("min_protein", "abc")] Dataset.initial).1 = Some []
  ∧ names_of (Host.GET Host.menu_disk [] Dataset.initial).1 = Some ["hi"; "lo"].
Proof. split; vm_compute; reflexivity. Qed.

(** C3 at work: the file holds another text but has the recorded
    modification time, and [loadData] returns the cached array. *)
Lemma loadData_checks_modification_time_witness :
  Dataset.CSV_FILE_PATH Host.loaded = Some Host.csvPath
  ∧ Host.loadData Host.other_menu_disk Host.loaded = (inr 0%nat, Host.loaded).
Proof.
  split; [vm_compute; reflexivity|].
  exact (loadData_checks_modification_time Host.Papa_parse Host.localPath
           Host.other_menu_disk Host.loaded Host.csvPath
           {| mtimeMs := 1000; text := Host.unlines [Host.header; "new,vegan,thai,3,3,3"] |}
           0%nat eq_refl eq_refl eq_refl eq_refl).
Defined.

(** C3, as stated, fails both ways.  A file with another content and the
    recorded modification time gives the old dataset, without a read; the
    same content written again gives a new computation. *)
Lemma loadData_stale_and_spurious :
  loaded_names (Host.loadData Host.other_menu_disk Host.loaded) = Some ["hi"; "lo"]
  ∧ Dataset.fileReads (Host.loadData Host.other_menu_disk Host.loaded).2
    = Dataset.fileReads Host.loaded
  ∧ Dataset.Recipe_name
    <$> Dataset.cleanDataset (Host.Papa_parse (Host.unlines [Host.header; "new,vegan,thai,3,3,3"]))
    = ["new"]
  ∧ Dataset.fileReads (Host.loadData Host.menu_rewritten Host.loaded).2
    = S (Dataset.fileReads Host.loaded)
  ∧ loaded_names (Host.loadData Host.menu_rewritten Host.loaded) = Some ["hi"; "lo"].
Proof. repeat split; vm_compute; reflexivity. Qed.

(** C4 on the code: a request that sorts without filtering reorders the
    cached dataset itself, and the next request without parameters returns
    the records in that new order. *)
Theorem GET_sort_reorders_cache :
  cached_names Host.loaded = Some ["hi"; "lo"]
  ∧ cached_names (Host.GET Host.menu_disk [("sort_by", "protein")] Host.loaded).2
    = Some ["lo"; "hi"]
  ∧ names_of
    <$> (Host.serve [(Host.menu_disk, [("sort_by", "protein")]); (Host.menu_disk, [])]
           Host.loaded).1
    = [Some ["lo"; "hi"]; Some ["lo"; "hi"]].
Proof. repeat split; vm_compute; reflexivity. Qed.

(** ** Objects used as dictionaries *)

Section Objects.
Context {V : Type}.
Implicit Types (o : JS.object V) (k : string) (v : V).

Lemma obj_get_cons k0 v0 o k :
  JS.obj_get ((k0, v0) :: o) k = if String.eqb k0 k then Some v0 else JS.obj_get o k.
Proof. unfold JS.obj_get. simpl. by destruct (String.eqb k0 k). Qed.

Lemma obj_get_None o k : JS.obj_get o k = None ↔ k ∉ o.*1.
Proof.
  induction o as [|[k0 v0] o IH]; [by split; [intros _ ?%elem_of_nil|]|].
  rewrite obj_get_cons, fmap_cons, not_elem_of_cons. simpl.
  destruct (String.eqb_spec k0 k) as [->|Hne]; [by split; [|intros [? _]]|].
  rewrite IH. split; [by split|by intros [_ ?]].
Qed.

Lemma obj_get_elem o k v : JS.obj_get o k = Some v → (k, v) ∈ o.
Proof.
  induction o as [|[k0 v0] o IH]; [done|]. rewrite obj_get_cons.
  destruct (String.eqb_spec k0 k) as [->|Hne]; [intros [= ->]; left|right; auto].
Qed.

Lemma elem_obj_get o k v : NoDup o.*1 → (k, v) ∈ o → JS.obj_get o k = Some v.
Proof.
  induction o as [|[k0 v0] o IH]; [by intros _ ?%elem_of_nil|].
  rewrite fmap_cons, NoDup_cons, obj_get_cons. simpl. intros [Hk0 Hnd] Hin.
  apply elem_of_cons in Hin as [[= -> ->]|Hin]; [by rewrite String.eqb_refl|].
  destruct (String.eqb_spec k0 k) as [->|Hne]; [|by apply IH].
  destruct Hk0. apply list_elem_of_fmap. by exists (k, v).
Qed.

(** Reading after [o[k] = v]. *)
Lemma obj_get_add k v o k' :
  JS.obj_get o k = None →
  JS.obj_get (JS.obj_add k v o) k' = if String.eqb k k' then Some v else JS.obj_get o k'.
Proof.
  induction o as [|[k0 v0] o IH]; intros Hnone; simpl.
  - by rewrite obj_get_cons.
  - rewrite obj_get_cons in Hnone.
    destruct (String.eqb_spec k0 k) as [|Hne]; [done|].
    destruct (match JS.array_index k with Some _ => _ | None => _ end).
    + by rewrite obj_get_cons.
    + rewrite !obj_get_cons, IH by done.
      destruct (String.eqb_spec k0 k') as [<-|]; [|done].
      by destruct (String.eqb_spec k k0).
Qed.

Lemma obj_get_replace k v o k' :
  JS.obj_get ((fun kv => if String.eqb kv.1 k then (k, v) else kv) <$> o) k'
  = if String.eqb k k' then (fun _ => v) <$> JS.obj_get o k else JS.obj_get o k'.
Proof.
  induction o as [|[k0 v0] o IH]; [by destruct (String.eqb k k')|].
  rewrite fmap_cons. cbn [fst].
  destruct (String.eqb_spec k0 k) as [->|Hne];
    rewrite !obj_get_cons, ?IH, ?String.eqb_refl;
    repeat (match goal with
            | |- context [String.eqb ?a ?b] => destruct (String.eqb_spec a b)
            end; subst; try done).
Qed.

Lemma obj_get_set k v o k' :
  JS.obj_get (JS.obj_set k v o) k' = if String.eqb k k' then Some v else JS.obj_get o k'.
Proof.
  unfold JS.obj_set. destruct (JS.obj_get o k) eqn:Hget.
  - etrans; [apply obj_get_replace|]. by rewrite Hget.
  - by apply obj_get_add.
Qed.

Lemma obj_add_keys k v o : (JS.obj_add k v o).*1 ≡ₚ k :: o.*1.
Proof.
  induction o as [|[k0 v0] o IH]; simpl; [done|].
  destruct (match JS.array_index k with Some _ => _ | None => _ end); [done|].
  rewrite !fmap_cons, IH. simpl. apply Permutation_swap.
Qed.

Lemma obj_set_keys k v o :
  (JS.obj_set k v o).*1 ≡ₚ match JS.obj_get o k with Some _ => o.*1 | None => k :: o.*1 end.
Proof.
  unfold JS.obj_set. destruct (JS.obj_get o k) eqn:Hget; [|apply obj_add_keys].
  rewrite <- list_fmap_compose.
  erewrite list_fmap_ext; [reflexivity|].
  intros _ [k1 v1] _. simpl. by destruct (String.eqb_spec k1 k).
Qed.

Lemma obj_set_NoDup k v o : NoDup o.*1 → NoDup (JS.obj_set k v o).*1.
Proof.
  intros Hnd. rewrite obj_set_keys. destruct (JS.obj_get o k) eqn:Hget; [done|].
  apply NoDup_cons. split; [by apply obj_get_None | done].
Qed.

Lemma obj_set_length k v o : (length (JS.obj_set k v o) ≤ S (length o))%nat.
Proof.
  rewrite <- (length_fmap fst (JS.obj_set k v o)), obj_set_keys.
  destruct (JS.obj_get o k); simpl; rewrite length_fmap; lia.
Qed.

End Objects.

(** ** The grouping loops *)

Section Grouping.
Implicit Types (data : list Statistics.DietRecord) (k callee : string).

Lemma plain_object_set {V} k (v : V) (o : JS.object V) :
  JS.inherited k = false → plain_object o → plain_object (JS.obj_set k v o).
Proof.
  intros Hk Ho k' Hk'. rewrite obj_get_set.
  destruct (String.eqb_spec k k') as [->|_]; [congruence | by apply Ho].
Qed.

(** A grouping loop throws exactly when an item that it groups has a key
    naming an inherited member; otherwise it is the loop over own entries. *)
Lemma group_items_spec callee (key : Statistics.DietRecord → string)
    (guard : Statistics.DietRecord → bool) data :
  ∀ o : JS.object (list Statistics.DietRecord),
  plain_object o →
  Statistics.group_items callee key guard data o
  = if existsb (fun item => guard item && JS.inherited (key item)) data
    then inl (Statistics.not_a_function callee)
    else inr (fold_left (fun o item =>
                if guard item
                then JS.obj_set (key item) (default [] (JS.obj_get o (key item)) ++ [item]) o
                else o) data o).
Proof.
  induction data as [|item data IH]; intros o Ho; [done|].
  cbn [Statistics.group_items existsb fold_left].
  destruct (guard item); [|by apply IH]. unfold Statistics.push_item.
  destruct (JS.inherited (key item)) eqn:Hk; cbn [andb orb].
  - by rewrite (Ho _ Hk).
  - destruct (JS.obj_get o (key item)); cbn [default id app];
      (rewrite IH; [done | by apply plain_object_set]).
Qed.

Lemma group_fold_get (key : Statistics.DietRecord → string)
    (guard : Statistics.DietRecord → bool) data :
  ∀ (o : JS.object (list Statistics.DietRecord)) k,
  JS.obj_get
    (fold_left (fun o item =>
       if guard item
       then JS.obj_set (key item) (default [] (JS.obj_get o (key item)) ++ [item]) o
       else o) data o) k
  = match JS.obj_get o k,
          List.filter (fun item => guard item && String.eqb (key item) k) data with
    | Some g, l => Some (g ++ l)
    | None, [] => None
    | None, l => Some l
    end.
Proof.
  induction data as [|item data IH]; intros o k; simpl.
  - destruct (JS.obj_get o k); [by rewrite app_nil_r | done].
  - rewrite IH. destruct (guard item); [|done]. rewrite obj_get_set.
    destruct (String.eqb_spec (key item) k) as [->|Hne]; simpl; [|done].
    destruct (JS.obj_get o k); simpl; [by rewrite <- app_assoc | done].
Qed.

Lemma group_fold_NoDup (key : Statistics.DietRecord → string)
    (guard : Statistics.DietRecord → bool) data :
  ∀ o : JS.object (list Statistics.DietRecord),
  NoDup o.*1 →
  NoDup (fold_left (fun o item =>
           if guard item
           then JS.obj_set (key item) (default [] (JS.obj_get o (key item)) ++ [item]) o
           else o) data o).*1.
Proof.
  induction data as [|item data IH]; intros o Hnd; simpl; [done|].
  apply IH. destruct (guard item); [by apply obj_set_NoDup | done].
Qed.

(** The groups a loop returns: under each key the items of that key that
    the loop groups, in their order, and no key twice. *)
Lemma group_items_returns callee (key : Statistics.DietRecord → string)
    (guard : Statistics.DietRecord → bool) data groups :
  Statistics.group_items callee key guard data [] = inr groups →
  NoDup groups.*1
  ∧ ∀ k, JS.obj_get groups k
         = for_group (fun l => l)
             (List.filter (fun item => guard item && String.eqb (key item) k) data).
Proof.
  rewrite group_items_spec by done. destruct (existsb _ data); [done|]. intros [= <-].
  split; [apply group_fold_NoDup; constructor|]. intros k.
  rewrite group_fold_get. cbn. unfold for_group. by destruct (List.filter _ data).
Qed.

Lemma plain_keys_spec data :
  plain_keys data
  = negb (existsb (fun item => true && JS.inherited (Statistics.Diet_type item)) data)
    && negb (existsb (fun item => negb (String.eqb (Statistics.Cuisine_type item) "")
                                  && JS.inherited (Statistics.Cuisine_type item)) data).
Proof.
  unfold plain_keys. induction data as [|item data IH]; [done|].
  cbn [forallb existsb]. rewrite IH.
  destruct (String.eqb_spec (Statistics.Cuisine_type item) "") as [->|_].
  - change (JS.inherited "") with false.
    destruct (JS.inherited (Statistics.Diet_type item)); cbn; [done|].
    by destruct (existsb _ data).
  - destruct (JS.inherited (Statistics.Diet_type item)),
      (JS.inherited (Statistics.Cuisine_type item)); cbn; try done.
    by destruct (existsb _ data).
Qed.

(** [calculateStatistics] returns when no key names an inherited member,
    and throws when one does. *)
Lemma calculateStatistics_returns data :
  plain_keys data = true → ∃ stats, Statistics.calculateStatistics data = inr stats.
Proof.
  rewrite plain_keys_spec, andb_true_iff, !negb_true_iff. intros [Hdiet Hcuisine].
  unfold Statistics.calculateStatistics. cbv zeta.
  rewrite !group_items_spec by done. rewrite Hdiet, Hcuisine. by eexists.
Qed.

Lemma calculateStatistics_throws data :
  plain_keys data = false → ∃ error, Statistics.calculateStatistics data = inl error.
Proof.
  rewrite plain_keys_spec, andb_false_iff, !negb_false_iff. intros Hsome.
  unfold Statistics.calculateStatistics. cbv zeta.
  rewrite !group_items_spec by done.
  destruct (existsb _ data) eqn:Hdiet; [by eexists|].
  destruct Hsome as [Hsome|Hsome]; [congruence|]. rewrite Hsome. by eexists.
Qed.

End Grouping.

(** What [calculateStatistics] returned, field by field. *)
Ltac returned H dietGroups cuisineGroups :=
  let Hdiet := fresh "Hdiet" in
  let Hcuisine := fresh "Hcuisine" in
  unfold Statistics.calculateStatistics in H; cbv zeta in H;
  destruct (Statistics.group_items _ Statistics.Diet_type _ _ _)
    as [?|dietGroups] eqn:Hdiet; [done|];
  destruct (Statistics.group_items _ Statistics.Cuisine_type _ _ _)
    as [?|cuisineGroups] eqn:Hcuisine; [done|];
  apply group_items_returns in Hdiet, Hcuisine;
  injection H as <-.

(** ** Properties of the statistics handler *)

Section Snapshots.
Variable Papa_parse : string → list RawRecord.
Variable CSV_FILE_PATH : string.
Variable message : Statistics.TypeError → string.

Lemma fresh_expired now c : expired now c → Statistics.fresh now c = None.
Proof.
  unfold Statistics.fresh.
  intros [->|[->|[->|(last & -> & Hage)]]]; try by destruct (Statistics.cachedStats c).
  destruct (Statistics.cachedStats c); [|done].
  destruct (now - last <? Statistics.CACHE_DURATION) eqn:Hlt; [lia|].
  by rewrite andb_false_r.
Qed.

Lemma fresh_within stats last now c :
  Statistics.cachedStats c = Some stats →
  Statistics.lastStatsCalcTime c = Some last →
  last ≠ 0 →
  now - last < Statistics.CACHE_DURATION →
  Statistics.fresh now c = Some stats.
Proof.
  intros Hs Hl Hne Hage. unfold Statistics.fresh. rewrite Hs, Hl.
  destruct (last =? 0) eqn:H0; [lia|].
  destruct (now - last <? Statistics.CACHE_DURATION) eqn:Hlt; [done | lia].
Qed.

Lemma fresh_cached now c stats :
  Statistics.fresh now c = Some stats → Statistics.cachedStats c = Some stats.
Proof.
  unfold Statistics.fresh.
  destruct (Statistics.cachedStats c); [|done].
  destruct (Statistics.lastStatsCalcTime c); [|done].
  by destruct (_ && _).
Qed.

(** The handler once the snapshot has expired and the file is there. *)
Lemma GET_expired now fs c file :
  expired now c →
  fs !! CSV_FILE_PATH = Some file →
  Statistics.GET Papa_parse CSV_FILE_PATH message now fs c
  = match Statistics.calculateStatistics (Statistics.clean_rows (Papa_parse (text file))) with
    | inr stats =>
        (Statistics.Json200 stats,
         {| Statistics.cachedStats := Some stats;
            Statistics.lastStatsCalcTime := Some now |})
    | inl error => (Statistics.Json500 (Statistics.message_or_default message error), c)
    end.
Proof.
  intros Hexp Hfile. unfold Statistics.GET, Statistics.loadAndCleanData.
  rewrite (fresh_expired _ _ Hexp), Hfile. cbn [fmap option_fmap option_map].
  by rewrite bool_decide_eq_true_2.
Qed.

(** C5 (as the code has it).  The statistics handler knows the age of its
    snapshot only.  A snapshot less than an hour old, taken at a time other
    than zero, is served as it is, whatever the source file holds by then.
    Once it has expired, the statistics of what the file holds now are
    calculated: when the calculation returns they are served and replace
    the snapshot; when it throws, which it does exactly when a diet or a
    cuisine of the cleaned records names an inherited member, the answer is
    500 and the cache stays as it was.  In every case a snapshot served or
    cached was computed from one text of the source, provided the cached
    one was. *)
Theorem statistics_served_by_age now fs c :
  (∀ stats last,
     Statistics.cachedStats c = Some stats →
     Statistics.lastStatsCalcTime c = Some last →
     last ≠ 0 →
     now - last < Statistics.CACHE_DURATION →
     Statistics.GET Papa_parse CSV_FILE_PATH message now fs c = (Statistics.Json200 stats, c))
  ∧ (∀ file,
       expired now c →
       fs !! CSV_FILE_PATH = Some file →
       Statistics.GET Papa_parse CSV_FILE_PATH message now fs c
       = match Statistics.calculateStatistics
                 (Statistics.clean_rows (Papa_parse (text file))) with
         | inr stats =>
             (Statistics.Json200 stats,
              {| Statistics.cachedStats := Some stats;
                 Statistics.lastStatsCalcTime := Some now |})
         | inl error =>
             (Statistics.Json500 (Statistics.message_or_default message error), c)
         end)
  ∧ (∀ file,
       expired now c →
       fs !! CSV_FILE_PATH = Some file →
       if plain_keys (Statistics.clean_rows (Papa_parse (text file)))
       then ∃ stats,
              Statistics.calculateStatistics
                (Statistics.clean_rows (Papa_parse (text file))) = inr stats
              ∧ Statistics.GET Papa_parse CSV_FILE_PATH message now fs c
                = (Statistics.Json200 stats,
                   {| Statistics.cachedStats := Some stats;
                      Statistics.lastStatsCalcTime := Some now |})
       else ∃ error,
              Statistics.GET Papa_parse CSV_FILE_PATH message now fs c
              = (Statistics.Json500 (Statistics.message_or_default message error), c))
  ∧ ((∀ stats, Statistics.cachedStats c = Some stats → snapshot_of Papa_parse stats) →
     ∀ stats,
       (Statistics.GET Papa_parse CSV_FILE_PATH message now fs c).1 = Statistics.Json200 stats
       ∨ Statistics.cachedStats (Statistics.GET Papa_parse CSV_FILE_PATH message now fs c).2
         = Some stats →
       snapshot_of Papa_parse stats).
Proof.
  split_and!.
  - intros stats last Hs Hl Hne Hage. unfold Statistics.GET.
    by rewrite (fresh_within stats last).
  - intros file. apply GET_expired.
  - intros file Hexp Hfile. rewrite (GET_expired _ _ _ _ Hexp Hfile).
    destruct (plain_keys _) eqn:Hplain.
    + destruct (calculateStatistics_returns _ Hplain) as [stats Hstats].
      exists stats. by rewrite Hstats.
    + destruct (calculateStatistics_throws _ Hplain) as [error Herror].
      exists error. by rewrite Herror.
  - intros Hc stats.
    destruct (Statistics.fresh now c) as [cached|] eqn:Hfresh.
    + unfold Statistics.GET. rewrite Hfresh.
      apply fresh_cached in Hfresh. cbn. intros [[= <-] | Heq]; apply Hc; congruence.
    + destruct (fs !! CSV_FILE_PATH) as [file|] eqn:Hfile.
      * unfold Statistics.GET, Statistics.loadAndCleanData. rewrite Hfresh, Hfile.
        rewrite bool_decide_eq_true_2 by done. cbn [fmap option_fmap option_map].
        destruct (Statistics.calculateStatistics _) as [error|computed] eqn:Hcomputed; cbn.
        -- intros [? | Heq]; [done | by apply Hc].
        -- intros [[= <-] | [= <-]]; by exists (text file).
      * unfold Statistics.GET. rewrite Hfresh, Hfile.
        rewrite bool_decide_eq_false_2 by (by intros [? ?]). cbn.
        intros [? | Heq]; [done | by apply Hc].
Qed.

End Snapshots.

(** C5, as stated, fails: the source changes just after the statistics were
    computed at time 1000; almost an hour later the handler still serves the
    two recipes of the old source, where the new one has a single recipe; it
    serves the new statistics once the hour has passed. *)
Lemma statistics_stale_within_the_hour :
  recipes_of
    (Host.statistics 3600999 Host.other_menu_disk
       (Host.statistics 1000 Host.menu_disk Statistics.initial).2).1
  = Some 2%nat
  ∧ total_of
      (Statistics.calculateStatistics
         (Statistics.clean_rows
            (Host.Papa_parse (Host.unlines [Host.header; "new,vegan,thai,3,3,3"]))))
    = Some 1%nat
  ∧ recipes_of
      (Host.statistics 3601000 Host.other_menu_disk
         (Host.statistics 1000 Host.menu_disk Statistics.initial).2).1
    = Some 1%nat.
Proof. repeat split; vm_compute; reflexivity. Qed.

(** A source with a recipe whose diet is written Constructor: the
    calculation throws at the first group, the answer is 500 and nothing is
    cached. *)
Example statistics_of_an_inherited_diet :
  Host.statistics 1000 Host.odd_menu_disk Statistics.initial
  = (Statistics.Json500 "dietGroups[item.Diet_type].push is not a function",
     Statistics.initial).
Proof. vm_compute. reflexivity. Qed.

(** C6 on the code: on the empty dataset the four averages are NaN (zero
    divided by zero) and the four maxima are -Infinity (the maximum of no
    value); the other fields are empty. *)
Theorem calculateStatistics_empty :
  Statistics.calculateStatistics []
  = inr {| Statistics.total_recipes := 0;
           Statistics.diet_types := [];
           Statistics.cuisine_types := [];
           Statistics.recipes_by_diet := [];
           Statistics.recipes_by_cuisine := [];
           Statistics.avg_macros_by_diet := [];
           Statistics.avg_macros_by_cuisine := [];
           Statistics.overall_stats :=
             {| Statistics.avg_protein := nan;
                Statistics.avg_carbs := nan;
                Statistics.avg_fat := nan;
                Statistics.avg_calories := nan;
                Statistics.max_protein := neg_infinity;
                Statistics.max_carbs := neg_infinity;
                Statistics.max_fat := neg_infinity;
                Statistics.max_calories := neg_infinity |};
           Statistics.top_calorie_recipes := [];
           Statistics.high_protein_recipes := [] |}.
Proof. vm_compute. reflexivity. Qed.

(** ** Numbers: comparisons *)

Section Comparisons.
Implicit Types (a b x : float) (f g : spec_float).

Lemma SFcompare_antisym f g c :
  SFcompare f g = Some c → SFcompare g f = Some (CompOpp c).
Proof.
  destruct f as [[]| []| |[] m1 e1], g as [[]| []| |[] m2 e2]; simpl;
    try (intros [= <-]; reflexivity); try discriminate.
  all: assert (Hm : Pos.compare_cont Eq m2 m1 = CompOpp (Pos.compare_cont Eq m1 m2))
    by (symmetry; apply (Pos.compare_cont_antisym m1 m2 Eq)).
  all: intros [= <-]; f_equal; rewrite (Z.compare_antisym e1 e2), Hm.
  all: by destruct (e1 ?= e2).
Qed.

Lemma SFcompare_refl f : f ≠ S754_nan → SFcompare f f = Some Eq.
Proof.
  destruct f as [[]| []| |[] m e]; simpl; try done; intros _;
    rewrite Z.compare_refl; f_equal; [|apply Pos.compare_cont_refl].
  by rewrite Pos.compare_cont_refl.
Qed.

Lemma is_nan_spec x : is_nan x = false ↔ Prim2SF x ≠ S754_nan.
Proof.
  unfold is_nan. rewrite FloatAxioms.eqb_spec. unfold SFeqb. split.
  - intros H Hnan. rewrite Hnan in H. done.
  - intros H. by rewrite SFcompare_refl.
Qed.

(** [a >= x] fails for numbers that are not NaN only when [x < a]. *)
Lemma not_ge_lt x a :
  is_nan x = false → is_nan a = false → JS.ge x a = false → PrimFloat.ltb x a = true.
Proof.
  rewrite !is_nan_spec. unfold JS.ge. rewrite FloatAxioms.leb_spec, FloatAxioms.ltb_spec.
  unfold SFleb, SFltb.
  intros Hx Ha. destruct (SFcompare (Prim2SF a) (Prim2SF x)) as [c|] eqn:Hc.
  - rewrite (SFcompare_antisym _ _ _ Hc). by destruct c.
  - destruct (Prim2SF a), (Prim2SF x); done.
Qed.

(** [x || 0] is never NaN. *)
Lemma or_zero_not_nan x : is_nan (JS.or_zero x) = false.
Proof.
  unfold JS.or_zero. destruct (is_nan x) eqn:Hnan; [reflexivity|]. simpl.
  by destruct (is_zero x).
Qed.

End Comparisons.

(** X1.  The macros of every cleaned record, on both routes, are numbers
    strictly below the thresholds; in particular none is NaN. *)
Theorem cleaned_macros_below_thresholds (rawData : list RawRecord) :
  Forall (fun r =>
            PrimFloat.ltb (Dataset.Protein_g r) 2000 = true
            ∧ PrimFloat.ltb (Dataset.Carbs_g r) 3000 = true
            ∧ PrimFloat.ltb (Dataset.Fat_g r) 2000 = true)
    (Dataset.cleanDataset rawData)
  ∧ Forall (fun r =>
              PrimFloat.ltb (Statistics.Protein_g r) 2000 = true
              ∧ PrimFloat.ltb (Statistics.Carbs_g r) 3000 = true
              ∧ PrimFloat.ltb (Statistics.Fat_g r) 2000 = true)
      (Statistics.clean_rows rawData).
Proof.
  assert (H : Forall (fun row =>
                        PrimFloat.ltb (parse_macro (raw_Protein_g row)) 2000 = true
                        ∧ PrimFloat.ltb (parse_macro (raw_Carbs_g row)) 3000 = true
                        ∧ PrimFloat.ltb (parse_macro (raw_Fat_g row)) 2000 = true)
                (kept ∅ rawData)).
  { eapply Forall_impl; [apply kept_Forall|]. intros row (_ & Hout & _).
    unfold row_outlier, is_outlier in Hout.
    apply orb_false_elim in Hout as [[Hp Hc]%orb_false_elim Hf].
    repeat split; apply not_ge_lt; try done; apply or_zero_not_nan. }
  rewrite cleanDataset_kept, clean_rows_kept, !Forall_fmap. split; exact H.
Qed.

(** ** Text: normalisation *)

Section Text.
Implicit Types (c : ascii) (l : list ascii) (s : string).

Lemma chars_str l : JS.chars (JS.str l) = l.
Proof. apply list_ascii_of_string_of_list_ascii. Qed.

Lemma str_chars s : JS.str (JS.chars s) = s.
Proof. apply string_of_list_ascii_of_string. Qed.

Lemma lower_char_idemp c : JS.lower_char (JS.lower_char c) = JS.lower_char c.
Proof. destruct c as [[] [] [] [] [] [] [] []]; reflexivity. Qed.

Lemma is_space_lower_char c : JS.is_space (JS.lower_char c) = JS.is_space c.
Proof. destruct c as [[] [] [] [] [] [] [] []]; reflexivity. Qed.

Lemma toLowerCase_idemp s : JS.toLowerCase (JS.toLowerCase s) = JS.toLowerCase s.
Proof.
  unfold JS.toLowerCase. rewrite chars_str, <- list_fmap_compose. f_equal.
  apply list_fmap_ext. intros _ c _. apply lower_char_idemp.
Qed.

Lemma trimStart_idemp l : JS.trimStart_chars (JS.trimStart_chars l) = JS.trimStart_chars l.
Proof.
  induction l as [|c l IH]; simpl; [done|].
  destruct (JS.is_space c) eqn:Hc; [done|]. simpl. by rewrite Hc.
Qed.

Lemma trimStart_lower l :
  JS.trimStart_chars (JS.lower_char <$> l) = JS.lower_char <$> JS.trimStart_chars l.
Proof.
  induction l as [|c l IH]; simpl; [done|].
  rewrite is_space_lower_char. by destruct (JS.is_space c).
Qed.

(** What precedes a character that is not white space survives a trim at
    the start, up to its own leading white space. *)
Lemma trimStart_snoc l c :
  JS.is_space c = false → JS.trimStart_chars (l ++ [c]) = JS.trimStart_chars l ++ [c].
Proof.
  intros Hc. induction l as [|d l IH]; simpl; [by rewrite Hc|].
  by destruct (JS.is_space d).
Qed.

Lemma trimmed_head l : JS.trimStart_chars (trimmed l) = trimmed l.
Proof.
  unfold trimmed. destruct (JS.trimStart_chars l) as [|c t] eqn:Ht; [done|].
  assert (Hc : JS.is_space c = false).
  { induction l as [|d l IH]; simpl in Ht; [done|].
    destruct (JS.is_space d) eqn:Hd; [by apply IH|]. by injection Ht as <- _. }
  simpl. rewrite trimStart_snoc by done. rewrite rev_app_distr. simpl. by rewrite Hc.
Qed.

Lemma trimmed_idemp l : trimmed (trimmed l) = trimmed l.
Proof.
  unfold trimmed at 1. rewrite trimmed_head. unfold trimmed.
  by rewrite rev_involutive, trimStart_idemp.
Qed.

Lemma trim_idemp s : JS.trim (JS.trim s) = JS.trim s.
Proof.
  unfold JS.trim. rewrite chars_str. fold (trimmed (JS.chars s)).
  fold (trimmed (trimmed (JS.chars s))). by rewrite trimmed_idemp.
Qed.

Lemma fmap_rev {A B} (f : A → B) (l : list A) : f <$> rev l = rev (f <$> l).
Proof. induction l as [|x l IH]; simpl; [done|]. by rewrite fmap_app, IH. Qed.

Lemma toLowerCase_trim s : JS.toLowerCase (JS.trim s) = JS.trim (JS.toLowerCase s).
Proof.
  unfold JS.toLowerCase, JS.trim. rewrite !chars_str. f_equal.
  by rewrite trimStart_lower, <- fmap_rev, trimStart_lower, fmap_rev.
Qed.

(** The text the handler compares with: lower case, then trimmed. *)
Lemma normalise_fixed s :
  JS.toLowerCase (JS.trim (JS.toLowerCase s)) = JS.trim (JS.toLowerCase s)
  ∧ JS.trim (JS.trim (JS.toLowerCase s)) = JS.trim (JS.toLowerCase s).
Proof. split; [by rewrite toLowerCase_trim, toLowerCase_idemp | apply trim_idemp]. Qed.

Lemma truthy_Some s : JS.truthy (Some s) = true ↔ s ≠ "".
Proof.
  simpl. by destruct (String.eqb_spec s "").
Qed.

End Text.

(** ** Cleaned records and the filters *)

(** Evaluates the lookups of a request given explicitly, and what follows
    from the parameters it lacks. *)
Ltac read_request :=
  unfold matches; cbv zeta;
  repeat match goal with
         | |- context [Dataset.get ?p ?n] =>
             let v := eval vm_compute in (Dataset.get p n) in
             change (Dataset.get p n) with v
         end;
  cbn [JS.truthy fmap option_fmap option_map negb orb default from_option id];
  rewrite ?andb_true_r.

(** A request for one diet, or one cuisine, given as it is stored. *)
Lemma matches_diet_only (d : string) (item : Dataset.DietRecord) :
  d ≠ "" → JS.trim (JS.toLowerCase d) = d → Dataset.Diet_type item = d →
  matches [("diet_type", d)] item = true.
Proof.
  intros Hne%truthy_Some Hnorm Hd. read_request. rewrite Hnorm.
  cbn [JS.truthy] in Hne. rewrite Hne, Hd. cbn [negb orb]. apply String.eqb_refl.
Qed.

Lemma matches_cuisine_only (d : string) (item : Dataset.DietRecord) :
  d ≠ "" → JS.trim (JS.toLowerCase d) = d → Dataset.Cuisine_type item = d →
  matches [("cuisine_type", d)] item = true.
Proof.
  intros Hne%truthy_Some Hnorm Hd. read_request. rewrite Hnorm.
  cbn [JS.truthy] in Hne. rewrite Hne, Hd. cbn [negb orb]. apply String.eqb_refl.
Qed.

(** X2.  The diet, the cuisine and the name of every cleaned record are
    stored normalised (lower case and trimmed, trimmed for the name), as the
    handler normalises the request; so a request for the stored diet, or the
    stored cuisine, of a record lets that record through. *)
Theorem cleaned_text_selects_itself (rawData : list RawRecord) :
  Forall (fun r =>
            JS.trim (JS.toLowerCase (Dataset.Diet_type r)) = Dataset.Diet_type r
            ∧ JS.trim (JS.toLowerCase (Dataset.Cuisine_type r)) = Dataset.Cuisine_type r
            ∧ JS.trim (Dataset.Recipe_name r) = Dataset.Recipe_name r
            ∧ (Dataset.Diet_type r ≠ "" →
               matches [("diet_type", Dataset.Diet_type r)] r = true)
            ∧ (Dataset.Cuisine_type r ≠ "" →
               matches [("cuisine_type", Dataset.Cuisine_type r)] r = true))
    (Dataset.cleanDataset rawData).
Proof.
  rewrite cleanDataset_kept, Forall_fmap. apply Forall_true. intros row.
  assert (Hnorm : ∀ s, JS.trim (JS.toLowerCase (JS.trim (JS.toLowerCase s)))
                       = JS.trim (JS.toLowerCase s)).
  { intros s. by rewrite toLowerCase_trim, toLowerCase_idemp, trim_idemp. }
  assert (Hcuisine : JS.trim (JS.toLowerCase (clean_cuisine (raw_Cuisine_type row)))
                     = clean_cuisine (raw_Cuisine_type row)).
  { unfold clean_cuisine. destruct (raw_Cuisine_type row); [apply Hnorm | reflexivity]. }
  unfold dataset_record, Dataset.make_record.
  cbn [Dataset.Diet_type Dataset.Cuisine_type Dataset.Recipe_name].
  split; [apply Hnorm|]. split; [exact Hcuisine|]. split; [apply trim_idemp|]. split.
  - intros Hne. apply matches_diet_only; [done | apply Hnorm | reflexivity].
  - intros Hne. apply matches_cuisine_only; [done | exact Hcuisine | reflexivity].
Qed.

Section Search.
Implicit Types (c : ascii) (l sub : list ascii).

Lemma starts_with_elem sub : ∀ l c, JS.starts_with sub l = true → c ∈ sub → c ∈ l.
Proof.
  induction sub as [|a sub IH]; intros l c Hstart Hc; [by apply elem_of_nil in Hc|].
  destruct l as [|b l]; [done|]. simpl in Hstart.
  apply andb_true_iff in Hstart as [->%Ascii.eqb_eq Hrest].
  apply elem_of_cons in Hc as [->|Hc]; [left | right; by eapply IH].
Qed.

Lemma includes_chars_elem l sub c : JS.includes_chars l sub = true → c ∈ sub → c ∈ l.
Proof.
  intros Hin Hc. induction l as [|b l IH]; simpl in Hin.
  - rewrite orb_false_r in Hin. by eapply starts_with_elem.
  - apply orb_true_iff in Hin as [Hstart|Hrest]; [by eapply starts_with_elem|].
    right. by apply IH.
Qed.

(** The search key of a cleaned record holds lower-case letters, digits and
    white space only. *)
Lemma search_key_chars row c :
  c ∈ JS.chars (Dataset.Recipe_name_search (dataset_record row)) →
  JS.is_lower c || JS.is_digit c || JS.is_space c = true.
Proof.
  cbn. unfold JS.strip_non_alnum. rewrite chars_str, list_elem_of_In, List.filter_In.
  by intros [_ H].
Qed.

End Search.

(** X3.  A search whose normalised text holds a character that is neither a
    lower-case letter, nor a digit, nor white space finds no cleaned record:
    such characters are removed from the search key of the records, not from
    the text searched for. *)
Theorem search_with_punctuation_finds_nothing
    (searchParams : list (string * string)) (term : string) (c : ascii) (row : RawRecord) :
  Dataset.get searchParams "search" = Some term →
  c ∈ JS.chars (JS.trim (JS.toLowerCase term)) →
  JS.is_lower c || JS.is_digit c || JS.is_space c = false →
  matches searchParams (dataset_record row) = false.
Proof.
  intros Hget Hc Hclass. unfold matches. cbv zeta. rewrite Hget.
  cbn [fmap option_fmap option_map default from_option id].
  assert (Htruthy : JS.truthy (Some (JS.trim (JS.toLowerCase term))) = true).
  { apply truthy_Some. intros Heq. rewrite Heq in Hc. by apply elem_of_nil in Hc. }
  rewrite Htruthy. cbn [negb orb].
  destruct (JS.includes _ _) eqn:Hinc.
  - unfold JS.includes in Hinc.
    pose proof (search_key_chars row c (includes_chars_elem _ _ c Hinc Hc)). congruence.
  - by rewrite andb_false_r.
Qed.

(** X3 at work: searching for "mac & cheese" does not find the recipe of
    that name. *)
Lemma search_with_punctuation_finds_nothing_witness :
  matches [("search", "Mac & Cheese")]
    (dataset_record (Host.row "Mac & Cheese" "keto" "" "1" "1" "1"))
  = false.
Proof.
  apply (search_with_punctuation_finds_nothing _ "Mac & Cheese" "&"%char);
    [reflexivity | vm_compute; set_solver | reflexivity].
Defined.

(** ** Growing sources *)

Lemma kept_app (rows more : list RawRecord) : ∀ seen,
  ∃ seen', kept seen (rows ++ more) = kept seen rows ++ kept seen' more.
Proof.
  induction rows as [|row rest IH]; intros seen; simpl; [by exists seen|].
  repeat case_match; try apply IH.
  destruct (IH ({[row_key row]} ∪ seen)) as [seen' ->]. by exists seen'.
Qed.

(** X4.  Rows appended to the source only append records: the records
    cleaned from the rows that were there come first, unchanged, and what
    follows is built from appended rows. *)
Theorem cleanDataset_append (rawData more : list RawRecord) :
  ∃ keptMore,
    Dataset.cleanDataset (rawData ++ more)
    = Dataset.cleanDataset rawData ++ (dataset_record <$> keptMore)
    ∧ keptMore `sublist_of` more.
Proof.
  destruct (kept_app rawData more ∅) as [seen' Happ].
  exists (kept seen' more). split; [|apply kept_sublist].
  by rewrite !cleanDataset_kept, Happ, fmap_app.
Qed.

(** ** Sorting and the store *)

Section Store.
Variable Papa_parse : string → list RawRecord.
Variable localeCompare : string → string → float.
Variable localPath : string.

Implicit Types (g : Dataset.Globals) (data : Dataset.ref)
  (searchParams : list (string * string)) (fs : gmap string File).

Lemma sort_insert_Permutation {A} (gt : A → A → bool) x (l : list A) :
  JS.sort_insert gt x l ≡ₚ x :: l.
Proof.
  induction l as [|y l IH]; simpl; [done|]. destruct (gt x y); [|done].
  by rewrite IH, Permutation_swap.
Qed.

Lemma Array_sort_Permutation {A} (gt : A → A → bool) (l : list A) :
  JS.Array_sort gt l ≡ₚ l.
Proof.
  induction l as [|x l IH]; simpl; [done|]. by rewrite sort_insert_Permutation, IH.
Qed.

Lemma sorted_Permutation searchParams (l : list Dataset.DietRecord) :
  sorted localeCompare searchParams l ≡ₚ l.
Proof. unfold sorted. destruct (sort_field _); [apply Array_sort_Permutation | done]. Qed.

(** X5.  Sorting only reorders: whatever [sort_by] and [sort_order] are,
    the records returned are the records that pass the filters, each as
    many times as the dataset holds it; and without a sort field the handler
    knows, they come in dataset order. *)
Theorem GET_sort_only_reorders fs searchParams g data g1 :
  Dataset.loadData Papa_parse localPath fs g = (inr data, g1) →
  ∃ body,
    (Dataset.GET Papa_parse localeCompare localPath fs searchParams g).1
    = Dataset.Json200 body
    ∧ Dataset.data body
      ≡ₚ Dataset.view <$> List.filter (matches searchParams) (Dataset.deref g1 data)
    ∧ (sort_field searchParams = None →
       Dataset.data body
       = Dataset.view <$> List.filter (matches searchParams) (Dataset.deref g1 data)).
Proof.
  intros Hload.
  destruct (GET_loaded Papa_parse localeCompare localPath fs searchParams g data g1 Hload)
    as (g2 & -> & _).
  eexists. split; [reflexivity|]. cbn. split.
  - by rewrite sorted_Permutation.
  - intros Hnone. unfold sorted. by rewrite Hnone.
Qed.

(** X6.  A request that applies a filter, or that does not sort, leaves
    the cached dataset exactly as [loadData] returned it. *)
Theorem GET_with_filter_keeps_cache fs searchParams g data g1 :
  well_formed g →
  Dataset.loadData Papa_parse localPath fs g = (inr data, g1) →
  filters searchParams = true ∨ sort_field searchParams = None →
  Dataset.cached_array
    (Dataset.GET Papa_parse localeCompare localPath fs searchParams g).2
  = Dataset.cached_array g1.
Proof.
  intros Hwf Hload Hcase.
  rewrite (GET_cached_array Papa_parse localeCompare localPath fs searchParams g data g1)
    by done.
  destruct (filters searchParams); [done|]. destruct Hcase as [|Hnone]; [done|].
  unfold sorted. rewrite Hnone. by destruct (Dataset.cached_array g1).
Qed.

(** *** Paths and failures *)

Lemma findCSVPath_exists fs p :
  Dataset.findCSVPath localPath fs = inr p → is_Some (fs !! p).
Proof.
  unfold Dataset.findCSVPath.
  destruct (List.find _ _) as [q|] eqn:Hfind; [|done]. intros [= <-].
  apply List.find_some in Hfind as [_ Hq]. by apply bool_decide_eq_true in Hq.
Qed.

(** X7.  A request that finds no source file is answered with status 500
    and the message of the error thrown, and leaves the module state, the
    cached dataset included, as it was: "CSV file not found" when the path
    resolved earlier has no file any more, "CSV file not found in any
    expected location" when no path was resolved yet and neither candidate
    has a file. *)
Theorem GET_without_source_file fs searchParams g :
  match Dataset.CSV_FILE_PATH g with
  | Some p => p ≠ "" ∧ fs !! p = None
  | None => fs !! "/app/backend/data/All_Diets.csv" = None ∧ fs !! localPath = None
  end →
  Dataset.GET Papa_parse localeCompare localPath fs searchParams g
  = (Dataset.Json500
       match Dataset.CSV_FILE_PATH g with
       | Some _ => "CSV file not found"
       | None => "CSV file not found in any expected location"
       end, g).
Proof.
  unfold Dataset.GET, Dataset.bind, Dataset.loadData.
  destruct (Dataset.CSV_FILE_PATH g) as [p|] eqn:Hpath.
  - intros [Hne%truthy_Some Hnone]. rewrite Hne. cbv beta iota zeta. rewrite Hpath.
    change (default "" (Some p)) with p. by rewrite Hnone.
  - intros [Hdocker Hlocal].
    unfold Dataset.findCSVPath, Dataset.possiblePaths. cbn [JS.truthy List.find].
    rewrite Hdocker, Hlocal. by rewrite !bool_decide_eq_false_2 by (by intros [? ?]).
Qed.

(** The state in which [loadData] returns an array. *)
Lemma loadData_returns fs g data g1 :
  localPath ≠ "" →
  Dataset.loadData Papa_parse localPath fs g = (inr data, g1) →
  ∃ p file,
    Dataset.CSV_FILE_PATH g1 = Some p
    ∧ JS.truthy (Some p) = true
    ∧ fs !! p = Some file
    ∧ Dataset.cachedData g1 = Some data
    ∧ (Dataset.same_time (Dataset.lastFileModTime g1) (mtimeMs file) = true
       ∨ Dataset.lastFileModTime g1 = Some (mtimeMs file)).
Proof.
  intros Hlocal. unfold Dataset.loadData.
  destruct (JS.truthy (Dataset.CSV_FILE_PATH g)) eqn:Htruthy.
  - destruct (Dataset.CSV_FILE_PATH g) as [p|] eqn:Hpath; [|done].
    change (default "" (Some p)) with p.
    destruct (fs !! p) as [file|] eqn:Hfile; [|done].
    destruct (Dataset.cachedData g) as [cached|] eqn:Hc.
    + destruct (Dataset.same_time _ _) eqn:Hsame.
      * intros [= <- <-]. exists p, file. split_and!; try done; by left.
      * cbn. intros [= <- <-]. exists p, file. cbn. split_and!; try done; by right.
    + cbn. intros [= <- <-]. exists p, file. cbn. split_and!; try done; by right.
  - destruct (Dataset.findCSVPath _ _) as [e|p] eqn:Hfind; [done|].
    assert (Hp : JS.truthy (Some p) = true).
    { unfold Dataset.findCSVPath in Hfind.
      destruct (List.find _ _) as [q|] eqn:Hq; [|done]. injection Hfind as ->.
      apply List.find_some in Hq as [Hin _]. apply truthy_Some.
      destruct Hin as [<-|[<-|[]]]; done. }
    destruct (findCSVPath_exists _ _ Hfind) as [file Hfile].
    unfold Dataset.set_CSV_FILE_PATH. cbn. rewrite Hfile.
    destruct (Dataset.cachedData g) as [cached|] eqn:Hc.
    + destruct (Dataset.same_time _ _) eqn:Hsame.
      * intros [= <- <-]. exists p, file. cbn. split_and!; try done; by left.
      * cbn. intros [= <- <-]. exists p, file. cbn. split_and!; try done; by right.
    + cbn. intros [= <- <-]. exists p, file. cbn. split_and!; try done; by right.
Qed.

(** X8.  The cache works: once [loadData] has returned an array, calling it
    again on the same files returns the same array and changes nothing, not
    even the count of file reads. *)
Theorem loadData_again fs g data g1 :
  localPath ≠ "" →
  (∀ p file, fs !! p = Some file → is_nan (mtimeMs file) = false) →
  Dataset.loadData Papa_parse localPath fs g = (inr data, g1) →
  Dataset.loadData Papa_parse localPath fs g1 = (inr data, g1).
Proof.
  intros Hlocal Htimes Hload.
  destruct (loadData_returns fs g data g1 Hlocal Hload)
    as (p & file & Hpath & Htruthy & Hfile & Hcached & Htime).
  assert (Hsame : Dataset.same_time (Dataset.lastFileModTime g1) (mtimeMs file) = true).
  { destruct Htime as [Hs | ->]; [exact Hs|]. cbn.
    pose proof (Htimes p file Hfile) as Hnan. unfold is_nan in Hnan.
    by apply negb_false_iff in Hnan. }
  unfold Dataset.loadData. rewrite Hpath, Htruthy. cbv beta iota zeta. rewrite Hpath.
  change (default "" (Some p)) with p. by rewrite Hfile, Hcached, Hsame.
Qed.

(** X9.  The path of the source is resolved once: a state that has a path
    keeps it through [loadData], and when no file is there any more the
    call fails, whatever the other candidate paths hold. *)
Theorem loadData_keeps_its_path fs g p :
  Dataset.CSV_FILE_PATH g = Some p →
  p ≠ "" →
  Dataset.CSV_FILE_PATH (Dataset.loadData Papa_parse localPath fs g).2 = Some p
  ∧ (fs !! p = None →
     Dataset.loadData Papa_parse localPath fs g = (inl "CSV file not found", g)).
Proof.
  intros Hpath Hne%truthy_Some. unfold Dataset.loadData.
  rewrite Hpath, Hne. cbv beta iota zeta. rewrite Hpath.
  change (default "" (Some p)) with p.
  destruct (fs !! p) as [file|]; [|done]. split; [|done].
  destruct (Dataset.cachedData g); [destruct (Dataset.same_time _ _)|]; done.
Qed.

(** X10.  The first resolution prefers the container path: it is taken
    whenever a file is there; the path relative to the working directory is
    taken only when the container path has no file; and with no file at
    either, [loadData] fails and resolves nothing. *)
Theorem loadData_first_resolution fs g :
  Dataset.CSV_FILE_PATH g = None →
  match fs !! "/app/backend/data/All_Diets.csv", fs !! localPath with
  | Some _, _ =>
      Dataset.CSV_FILE_PATH (Dataset.loadData Papa_parse localPath fs g).2
      = Some "/app/backend/data/All_Diets.csv"
  | None, Some _ =>
      Dataset.CSV_FILE_PATH (Dataset.loadData Papa_parse localPath fs g).2 = Some localPath
  | None, None =>
      Dataset.loadData Papa_parse localPath fs g
      = (inl "CSV file not found in any expected location", g)
  end.
Proof.
  intros Hpath. unfold Dataset.loadData, Dataset.findCSVPath, Dataset.possiblePaths.
  rewrite Hpath. cbn [JS.truthy List.find].
  destruct (fs !! "/app/backend/data/All_Diets.csv") as [file|] eqn:Hdocker.
  - rewrite bool_decide_eq_true_2 by done. cbn. rewrite Hdocker.
    destruct (Dataset.cachedData g); [destruct (Dataset.same_time _ _)|]; done.
  - rewrite bool_decide_eq_false_2 by (by intros [? ?]).
    destruct (fs !! localPath) as [file|] eqn:Hlocal.
    + rewrite bool_decide_eq_true_2 by done. cbn. rewrite Hlocal.
      destruct (Dataset.cachedData g); [destruct (Dataset.same_time _ _)|]; done.
    + rewrite bool_decide_eq_false_2 by (by intros [? ?]). done.
Qed.

End Store.

(** X5 at work: sorted by protein, [Host.menu_disk] gives its two records. *)
Lemma GET_sort_only_reorders_witness :
  ∃ body,
    (Host.GET Host.menu_disk [("sort_by", "protein")] Dataset.initial).1
    = Dataset.Json200 body
    ∧ Dataset.data body
      ≡ₚ Dataset.view
         <$> List.filter (matches [("sort_by", "protein")])
               (Dataset.deref (Host.loadData Host.menu_disk Dataset.initial).2 0%nat).
Proof.
  destruct (GET_sort_only_reorders Host.Papa_parse Host.localeCompare Host.localPath
              Host.menu_disk [("sort_by", "protein")] Dataset.initial 0%nat _ menu_loads)
    as (body & Hbody & Hperm & _).
  by exists body.
Defined.

Lemma initial_well_formed : well_formed Dataset.initial.
Proof. by intros c. Qed.

(** X6 at work: a sort of the keto recipes leaves the cache in file order. *)
Lemma GET_with_filter_keeps_cache_witness :
  filters [("diet_type", "keto"); ("sort_by", "protein")] = true
  ∧ Dataset.cached_array
      (Host.GET Host.menu_disk [("diet_type", "keto"); ("sort_by", "protein")]
         Dataset.initial).2
    = Dataset.cached_array (Host.loadData Host.menu_disk Dataset.initial).2.
Proof.
  split; [reflexivity|].
  apply (GET_with_filter_keeps_cache Host.Papa_parse Host.localeCompare Host.localPath
           Host.menu_disk _ Dataset.initial 0%nat _ initial_well_formed menu_loads).
  left. reflexivity.
Defined.

(** X7 at work: without any dataset file the first request fails. *)
Lemma GET_without_source_file_witness :
  Host.GET Host.no_disk [("diet_type", "keto")] Dataset.initial
  = (Dataset.Json500 "CSV file not found in any expected location", Dataset.initial).
Proof.
  apply (GET_without_source_file Host.Papa_parse Host.localeCompare Host.localPath
           Host.no_disk [("diet_type", "keto")] Dataset.initial).
  split; reflexivity.
Defined.

(** X8 at work: the second load of [Host.menu_disk] is served by the cache. *)
Lemma loadData_again_witness :
  Host.loadData Host.menu_disk (Host.loadData Host.menu_disk Dataset.initial).2
  = (inr 0%nat, (Host.loadData Host.menu_disk Dataset.initial).2).
Proof.
  apply (loadData_again Host.Papa_parse Host.localPath Host.menu_disk Dataset.initial).
  - discriminate.
  - intros p file Hfile. unfold Host.menu_disk, Host.disk in Hfile.
    apply lookup_singleton_Some in Hfile as [_ <-]. reflexivity.
  - exact menu_loads.
Defined.

(** X9 at work: the file at the resolved path is gone and another one waits
    at the second path; [loadData] fails. *)
Lemma loadData_keeps_its_path_witness :
  Dataset.CSV_FILE_PATH Host.loaded = Some Host.csvPath
  ∧ is_Some (Host.local_disk !! Host.localPath)
  ∧ Host.loadData Host.local_disk Host.loaded = (inl "CSV file not found", Host.loaded).
Proof.
  split; [vm_compute; reflexivity|]. split; [vm_compute; eauto|].
  apply (loadData_keeps_its_path Host.Papa_parse Host.localPath Host.local_disk
           Host.loaded Host.csvPath); [vm_compute; reflexivity | discriminate |].
  vm_compute. reflexivity.
Defined.

(** X10 at work: with a file at each path, the container path is taken. *)
Lemma loadData_first_resolution_witness :
  Dataset.CSV_FILE_PATH (Host.loadData Host.both_disks Dataset.initial).2
  = Some Host.csvPath
  ∧ loaded_names (Host.loadData Host.both_disks Dataset.initial) = Some ["hi"; "lo"].
Proof.
  split; [|vm_compute; reflexivity].
  exact (loadData_first_resolution Host.Papa_parse Host.localPath Host.both_disks
           Dataset.initial eq_refl).
Defined.

(** ** The statistics: groups *)

Section Groups.
Implicit Types (data : list Statistics.DietRecord) (k : string).

(** Dictionaries filled entry by entry from a list without repeated key. *)
Lemma fold_obj_set_get {A V} (f : A → V) (l : list (string * A)) :
  NoDup l.*1 →
  ∀ (acc : JS.object V) k,
    JS.obj_get (fold_left (fun acc kv => JS.obj_set kv.1 (f kv.2) acc) l acc) k
    = match JS.obj_get l k with
      | Some x => Some (f x)
      | None => JS.obj_get acc k
      end.
Proof.
  induction l as [|[k0 x0] l IH]; intros Hnd acc k; [done|].
  rewrite fmap_cons, NoDup_cons in Hnd. destruct Hnd as [Hk0 Hnd]. simpl in Hk0.
  cbn [fold_left fst snd]. rewrite IH, obj_get_cons, obj_get_set by done.
  destruct (String.eqb_spec k0 k) as [<-|Hne]; [|done].
  apply obj_get_None in Hk0. by rewrite Hk0.
Qed.

Lemma fold_obj_set_keys {A V} (f : A → V) (l : list (string * A)) :
  NoDup l.*1 →
  ∀ acc : JS.object V,
    (∀ k, k ∈ l.*1 → k ∉ acc.*1) →
    (fold_left (fun acc kv => JS.obj_set kv.1 (f kv.2) acc) l acc).*1 ≡ₚ l.*1 ++ acc.*1.
Proof.
  induction l as [|[k0 x0] l IH]; intros Hnd acc Hfresh; [done|].
  rewrite fmap_cons, NoDup_cons in Hnd. destruct Hnd as [Hk0 Hnd]. simpl in Hk0.
  cbn [fold_left fst snd].
  assert (Hnew : JS.obj_get acc k0 = None).
  { apply obj_get_None, Hfresh. rewrite fmap_cons. left. }
  pose proof (obj_set_keys k0 (f x0) acc) as Hkeys. rewrite Hnew in Hkeys.
  rewrite IH; [rewrite Hkeys, fmap_cons; symmetry; apply Permutation_middle | done |].
  intros k Hk. rewrite Hkeys, not_elem_of_cons. split; [by intros ->|].
  apply Hfresh. rewrite fmap_cons. by right.
Qed.

(** The loop that counts, started from any dictionary. *)
Lemma count_loop (key : Statistics.DietRecord → string) data : ∀ (o : JS.object nat) k,
  JS.obj_get
    (fold_left (fun o item =>
       JS.obj_set (key item) (default 0%nat (JS.obj_get o (key item)) + 1)%nat o) data o) k
  = match JS.obj_get o k, List.filter (fun item => String.eqb (key item) k) data with
    | Some n, l => Some (n + length l)%nat
    | None, [] => None
    | None, l => Some (length l)
    end.
Proof.
  induction data as [|item data IH]; intros o k; simpl.
  - destruct (JS.obj_get o k); [f_equal; lia | done].
  - rewrite IH, obj_get_set.
    destruct (String.eqb_spec (key item) k) as [->|Hne]; simpl.
    + destruct (JS.obj_get o k); simpl; f_equal; lia.
    + done.
Qed.

(** The same loop when it skips the items whose key is empty. *)
Lemma count_by_get (key : Statistics.DietRecord → string) data : ∀ (o : JS.object nat) k,
  k ≠ "" →
  JS.obj_get
    (fold_left (fun o item =>
       if String.eqb (key item) "" then o
       else JS.obj_set (key item) (default 0%nat (JS.obj_get o (key item)) + 1)%nat o)
       data o) k
  = match JS.obj_get o k, List.filter (fun item => String.eqb (key item) k) data with
    | Some n, l => Some (n + length l)%nat
    | None, [] => None
    | None, l => Some (length l)
    end.
Proof.
  induction data as [|item data IH]; intros o k Hk; simpl.
  - destruct (JS.obj_get o k); [f_equal; lia | done].
  - rewrite IH by done. destruct (String.eqb_spec (key item) "") as [Hempty|_].
    + rewrite Hempty. by destruct (String.eqb_spec "" k).
    + rewrite obj_get_set.
      destruct (String.eqb_spec (key item) k) as [->|Hne]; simpl; [|done].
      destruct (JS.obj_get o k); simpl; f_equal; lia.
Qed.

(** No item gives the empty key to a loop that skips it. *)
Lemma guarded_loop_no_empty_key {V} (key : Statistics.DietRecord → string)
    (value : JS.object V → Statistics.DietRecord → V) data : ∀ o : JS.object V,
  JS.obj_get o "" = None →
  JS.obj_get
    (fold_left (fun o item =>
       if String.eqb (key item) "" then o else JS.obj_set (key item) (value o item) o)
       data o) ""
  = None.
Proof.
  induction data as [|item data IH]; intros o Hnone; simpl; [done|].
  apply IH. destruct (String.eqb_spec (key item) "") as [|Hne]; [done|].
  rewrite obj_get_set. by destruct (String.eqb_spec (key item) "").
Qed.

Lemma loop_NoDup {V} (key : Statistics.DietRecord → string)
    (value : JS.object V → Statistics.DietRecord → V) (guard : Statistics.DietRecord → bool)
    data : ∀ o : JS.object V,
  NoDup o.*1 →
  NoDup (fold_left (fun o item =>
           if guard item then o else JS.obj_set (key item) (value o item) o) data o).*1.
Proof.
  induction data as [|item data IH]; intros o Hnd; simpl; [done|].
  apply IH. destruct (guard item); [done | by apply obj_set_NoDup].
Qed.

End Groups.

(** The items a filter keeps, when it keeps any. *)
Lemma filter_nil {A} (p : A → bool) (l : list A) :
  List.filter p l = [] ↔ ∀ x, x ∈ l → p x = false.
Proof.
  induction l as [|y l IH]; simpl.
  - split; [by intros _ x ?%elem_of_nil | done].
  - destruct (p y) eqn:Hy.
    + split; [done|]. intros H. specialize (H y). rewrite H in Hy; [done | left].
    + rewrite IH. split.
      * intros H x [->|Hx]%elem_of_cons; [done | by apply H].
      * intros H x Hx. apply H. by right.
Qed.

Lemma filter_guarded (key : Statistics.DietRecord → string) k data :
  k ≠ "" →
  List.filter (fun item => negb (String.eqb (key item) "") && String.eqb (key item) k) data
  = List.filter (fun item => String.eqb (key item) k) data.
Proof.
  intros Hk. induction data as [|item data IH]; [done|]. simpl. rewrite IH.
  destruct (String.eqb_spec (key item) k) as [->|_].
  - by destruct (String.eqb_spec k "").
  - by rewrite andb_false_r.
Qed.

(** X11.  When [calculateStatistics] returns, [recipes_by_diet] is the
    histogram of the diets: a diet is a key exactly when some record has
    it, and its value is the number of such records. *)
Theorem recipes_by_diet_counts (data : list Statistics.DietRecord)
    (stats : Statistics.Stats) (k : string) :
  Statistics.calculateStatistics data = inr stats →
  JS.obj_get (Statistics.recipes_by_diet stats) k
  = for_group (@length _) (with_diet k data).
Proof.
  intros Hstats. returned Hstats dietGroups cuisineGroups.
  cbn [Statistics.recipes_by_diet].
  rewrite (count_loop Statistics.Diet_type). cbn. unfold with_diet, for_group.
  by destruct (List.filter _ data).
Qed.

(** X11 at work: one keto recipe on the menu, and no vegan one. *)
Lemma recipes_by_diet_counts_witness :
  ∃ stats,
    Statistics.calculateStatistics Host.menu_data = inr stats
    ∧ JS.obj_get (Statistics.recipes_by_diet stats) "keto" = Some 1%nat
    ∧ JS.obj_get (Statistics.recipes_by_diet stats) "vegan" = None.
Proof.
  destruct (Statistics.calculateStatistics Host.menu_data) as [error|stats] eqn:Hstats;
    [by vm_compute in Hstats|].
  exists stats. split; [done|]. split.
  - exact (recipes_by_diet_counts Host.menu_data stats "keto" Hstats).
  - exact (recipes_by_diet_counts Host.menu_data stats "vegan" Hstats).
Defined.

(** X12.  When [calculateStatistics] returns, the averages by diet and by
    cuisine are taken over exactly the records of that diet, or of that
    cuisine: a key is present when such a record exists, the empty cuisine
    excepted, and its value is the rounded average of those records. *)
Theorem average_macros_by_group (data : list Statistics.DietRecord)
    (stats : Statistics.Stats) (k : string) :
  Statistics.calculateStatistics data = inr stats →
  JS.obj_get (Statistics.avg_macros_by_diet stats) k
  = for_group Statistics.average_macros (with_diet k data)
  ∧ JS.obj_get (Statistics.avg_macros_by_cuisine stats) k
    = if String.eqb k "" then None
      else for_group Statistics.average_macros (with_cuisine k data).
Proof.
  intros Hstats. returned Hstats dietGroups cuisineGroups.
  destruct Hdiet as [Hdiet_keys Hdiet], Hcuisine as [Hcuisine_keys Hcuisine].
  cbn [Statistics.avg_macros_by_diet Statistics.avg_macros_by_cuisine].
  rewrite !(fold_obj_set_get Statistics.average_macros) by done.
  rewrite Hdiet, Hcuisine. cbn [andb]. split.
  - unfold with_diet, for_group. by destruct (List.filter _ data).
  - destruct (String.eqb_spec k "") as [->|Hk].
    + rewrite (proj2 (filter_nil _ data)); [done|].
      intros item _. by destruct (String.eqb (Statistics.Cuisine_type item) "").
    + rewrite filter_guarded by done.
      unfold with_cuisine, for_group. by destruct (List.filter _ data).
Qed.

(** X12 at work: the two Thai recipes of the menu, 9 and 1 grams of
    protein, average 5. *)
Lemma average_macros_by_group_witness :
  ∃ stats,
    Statistics.calculateStatistics Host.menu_data = inr stats
    ∧ Statistics.m_Protein_g
        <$> JS.obj_get (Statistics.avg_macros_by_cuisine stats) "thai" = Some 5%float.
Proof.
  destruct (Statistics.calculateStatistics Host.menu_data) as [error|stats] eqn:Hstats;
    [by vm_compute in Hstats|].
  exists stats. split; [done|].
  rewrite (proj2 (average_macros_by_group Host.menu_data stats "thai" Hstats)).
  vm_compute. reflexivity.
Defined.

(** ** The statistics: rankings and lists *)

Section Rankings.

(** The stable sort puts a list in the order of a total preorder [R] when the
    comparator is positive exactly against it. *)
Lemma Array_sort_sorted {A} (gt : A → A → bool) (R : relation A) `{!Transitive R} :
  (∀ x y, gt x y = false → R x y) →
  (∀ x y, gt x y = true → R y x) →
  ∀ l, StronglySorted R (JS.Array_sort gt l).
Proof.
  intros Hle Hgt. induction l as [|x l IH]; simpl; [constructor|].
  induction IH as [|y s Hs IHs Hy]; simpl; [by repeat constructor|].
  destruct (gt x y) eqn:Hxy.
  - constructor; [exact IHs|].
    rewrite sort_insert_Permutation. constructor; [by apply Hgt | done].
  - constructor; [by constructor|]. constructor; [by apply Hle|].
    eapply Forall_impl; [exact Hy|]. intros z Hz. etrans; [by apply Hle | done].
Qed.

Lemma ltb_Lt (a b : string) : String.ltb a b = true ↔ String.compare a b = Lt.
Proof. unfold String.ltb. by destruct (String.compare a b). Qed.

Lemma ltb_asym (a b : string) : String.ltb a b = true → String.ltb b a = false.
Proof.
  unfold String.ltb. rewrite (String.compare_antisym a b).
  by destruct (String.compare b a).
Qed.

Lemma ltb_trans (a b c : string) :
  String.ltb a b = true → String.ltb b c = true → String.ltb a c = true.
Proof.
  rewrite !ltb_Lt. change String.compare with String_as_OT.cmp.
  rewrite !String_as_OT.cmp_lt. apply String_as_OT.lt_trans.
Qed.

Lemma ltb_total (a b : string) : String.ltb b a = false → a ≠ b → String.ltb a b = true.
Proof.
  unfold String.ltb. rewrite (String.compare_antisym a b).
  destruct (String.compare b a) eqn:Hc; try done.
  apply String.compare_eq_iff in Hc. by intros _ [].
Qed.

#[local] Instance not_after_trans : Transitive not_after.
Proof.
  unfold not_after. intros a b c Hab Hbc.
  destruct (String.ltb c a) eqn:Hca; [|done].
  destruct (String.eqb_spec a b) as [->|Hne]; [congruence|].
  pose proof (ltb_total a b Hab Hne) as Hlt.
  pose proof (ltb_trans c a b Hca Hlt). congruence.
Qed.

Lemma Set_elements_spec (l : list string) :
  NoDup (JS.Set_elements l) ∧ ∀ x, x ∈ JS.Set_elements l ↔ x ∈ l.
Proof.
  unfold JS.Set_elements.
  assert (H : ∀ acc, NoDup acc →
              NoDup (fold_left (fun acc x => if bool_decide (x ∈ acc) then acc else acc ++ [x])
                       l acc)
              ∧ ∀ x, x ∈ fold_left (fun acc x => if bool_decide (x ∈ acc) then acc
                                                 else acc ++ [x]) l acc
                     ↔ x ∈ acc ∨ x ∈ l).
  { induction l as [|y l IH]; intros acc Hnd; simpl.
    - split; [done|]. intros x. rewrite elem_of_nil. tauto.
    - case_bool_decide as Hy.
      + destruct (IH acc Hnd) as [Hn Hin]. split; [done|]. intros x.
        rewrite Hin, elem_of_cons. split; [tauto|]. intros [?|[->|?]]; tauto.
      + assert (Hnd' : NoDup (acc ++ [y])).
        { apply NoDup_app. split; [done|]. split; [|apply NoDup_singleton].
          intros x Hx ->%list_elem_of_singleton. done. }
        destruct (IH _ Hnd') as [Hn Hin]. split; [done|]. intros x.
        rewrite Hin, elem_of_app, list_elem_of_singleton, elem_of_cons. tauto. }
  destruct (H [] (NoDup_nil_2)) as [Hn Hin]. split; [done|]. intros x.
  rewrite Hin, elem_of_nil. tauto.
Qed.

Lemma sort_strings_spec (l : list string) :
  NoDup l →
  StronglySorted (fun a b => String.ltb a b = true) (JS.sort_strings l)
  ∧ ∀ x, x ∈ JS.sort_strings l ↔ x ∈ l.
Proof.
  intros Hnd. unfold JS.sort_strings.
  pose proof (Array_sort_Permutation (fun a b => String.ltb b a) l) as Hperm.
  split; [|intros x; by rewrite Hperm].
  assert (Hs : StronglySorted not_after (JS.Array_sort (fun a b => String.ltb b a) l)).
  { apply Array_sort_sorted; [apply _ | done | intros x y; apply ltb_asym]. }
  rewrite <- Hperm in Hnd. clear Hperm.
  induction Hs as [|a s Hs IH Ha]; [constructor|].
  apply NoDup_cons in Hnd as [Hnotin Hnd]. constructor; [by apply IH|].
  rewrite Forall_forall in Ha. apply Forall_forall. intros b Hb.
  apply ltb_total; [by apply Ha | by intros ->].
Qed.

End Rankings.

(** X13.  When [calculateStatistics] returns, [recipes_by_cuisine] holds
    the most frequent cuisines, twenty at most: as many entries as there
    are distinct cuisines, up to twenty; each with the number of records of
    that cuisine; and no cuisine left out has more records than a cuisine
    listed.  The empty cuisine is not counted. *)
Theorem recipes_by_cuisine_top20 (data : list Statistics.DietRecord)
    (stats : Statistics.Stats) (cuisines : list string) :
  Statistics.calculateStatistics data = inr stats →
  cuisines_of data cuisines →
  let top := Statistics.recipes_by_cuisine stats in
  length top = (20 `min` length cuisines)%nat
  ∧ (∀ k n, JS.obj_get top k = Some n →
            k ≠ "" ∧ n = length (with_cuisine k data) ∧ (0 < n)%nat)
  ∧ (∀ k n k',
       JS.obj_get top k = Some n → k' ≠ "" → JS.obj_get top k' = None →
       (length (with_cuisine k' data) ≤ n)%nat).
Proof.
  intros Hstats [Hcuisines Hlisted] top. subst top.
  returned Hstats dietGroups cuisineGroups. clear Hdiet Hcuisine.
  cbn [Statistics.recipes_by_cuisine].
  set (all := Statistics.count_by Statistics.Cuisine_type data).
  set (s := JS.Array_sort (fun a b : string * nat => (a.2 <? b.2)%nat) all).
  match goal with
  | |- context [fold_left ?f (take 20 s) []] => set (top := fold_left f (take 20 s) [])
  end.
  assert (Hall : NoDup all.*1).
  { apply (loop_NoDup Statistics.Cuisine_type
             (fun o item => (default 0 (JS.obj_get o (Statistics.Cuisine_type item)) + 1)%nat)
             (fun item => String.eqb (Statistics.Cuisine_type item) "")). constructor. }
  assert (Hget : ∀ k, JS.obj_get all k
                      = if String.eqb k "" then None
                        else for_group (@length _) (with_cuisine k data)).
  { intros k. destruct (String.eqb_spec k "") as [->|Hk].
    - apply (guarded_loop_no_empty_key Statistics.Cuisine_type
               (fun o item =>
                  (default 0 (JS.obj_get o (Statistics.Cuisine_type item)) + 1)%nat)).
      done.
    - subst all. unfold Statistics.count_by.
      rewrite (count_by_get Statistics.Cuisine_type) by done. cbn.
      unfold with_cuisine, for_group. by destruct (List.filter _ data). }
  assert (Hperm : s ≡ₚ all) by apply Array_sort_Permutation.
  assert (Hs : NoDup s.*1) by (by rewrite Hperm).
  assert (Ht : NoDup (take 20 s).*1).
  { rewrite fmap_take. eapply sublist_NoDup; [exact Hs | apply sublist_take]. }
  assert (Htop : ∀ k, JS.obj_get top k = JS.obj_get (take 20 s) k).
  { intros k. subst top. rewrite (fold_obj_set_get (fun n : nat => n)) by done.
    by destruct (JS.obj_get (take 20 s) k). }
  assert (Hsorted : StronglySorted (fun a b : string * nat => (b.2 ≤ a.2)%nat) s).
  { apply Array_sort_sorted.
    - intros a b c ? ?. lia.
    - intros a b Hab%Nat.ltb_ge. lia.
    - intros a b Hab%Nat.ltb_lt. lia. }
  assert (Hin_all : ∀ k n, JS.obj_get top k = Some n → JS.obj_get all k = Some n).
  { intros k n. rewrite Htop. intros Hk%obj_get_elem.
    apply elem_obj_get; [done|]. rewrite <- Hperm, <- (take_drop 20 s), elem_of_app.
    by left. }
  split; [|split].
  - subst top.
    rewrite <- (length_fmap fst), (fold_obj_set_keys (fun n : nat => n)), app_nil_r;
      [|done|by intros k _ ?%elem_of_nil].
    rewrite length_fmap, length_take. unfold s. rewrite Array_sort_length.
    f_equal. rewrite <- (length_fmap fst all). apply Permutation_length.
    apply NoDup_Permutation; [done..|]. intros k. rewrite Hlisted.
    destruct (JS.obj_get all k) as [n|] eqn:Hk.
    + pose proof (obj_get_elem _ _ _ Hk) as Hin.
      split; [intros _ | intros _; apply list_elem_of_fmap; by exists (k, n)].
      rewrite Hget in Hk. destruct (String.eqb_spec k "") as [|Hne]; [done|].
      split; [done|]. unfold for_group, with_cuisine in Hk.
      destruct (List.filter _ data) as [|item l] eqn:Hfilter; [done|].
      assert (Hitem : In item (List.filter
                         (fun item => String.eqb (Statistics.Cuisine_type item) k) data)).
      { rewrite Hfilter. by left. }
      apply List.filter_In in Hitem as [Hitem Heq]. exists item.
      split; [by apply list_elem_of_In | by apply String.eqb_eq].
    + split; [by intros ?%obj_get_None|]. intros [Hne (item & Hitem & Heq)].
      rewrite Hget in Hk. destruct (String.eqb_spec k "") as [|_]; [done|].
      unfold for_group, with_cuisine in Hk.
      destruct (List.filter _ data) eqn:Hfilter; [|done].
      pose proof (proj1 (filter_nil _ _) Hfilter item Hitem) as Hfalse. cbn in Hfalse.
      rewrite Heq, String.eqb_refl in Hfalse. done.
  - intros k n Hk%Hin_all. rewrite Hget in Hk.
    destruct (String.eqb_spec k "") as [|Hne]; [done|]. split; [done|].
    unfold for_group in Hk. destruct (with_cuisine k data); [done|].
    injection Hk as <-. cbn. split; [done | lia].
  - intros k n k' Hk Hk' Hnone.
    destruct (JS.obj_get all k') as [n'|] eqn:Hall'.
    + pose proof Hall' as Hcount. rewrite Hget in Hcount.
      destruct (String.eqb_spec k' "") as [|_]; [done|]. unfold for_group in Hcount.
      destruct (with_cuisine k' data); [done|]. injection Hcount as <-.
      rewrite Htop in Hk, Hnone. apply obj_get_elem in Hk, Hall'.
      rewrite <- Hperm, <- (take_drop 20 s), elem_of_app in Hall'.
      destruct Hall' as [Hin|Hin].
      * apply (elem_obj_get _ _ _ Ht) in Hin. congruence.
      * rewrite <- (take_drop 20 s) in Hsorted.
        apply (StronglySorted_app_1_elem_of _ _ _ _ _ Hsorted Hk Hin).
    + rewrite Hget in Hall'. destruct (String.eqb_spec k' "") as [|_]; [done|].
      unfold for_group in Hall'. destruct (with_cuisine k' data); [|done]. cbn. lia.
Qed.

(** X13 at work: the menu has one cuisine, with two recipes. *)
Lemma recipes_by_cuisine_top20_witness :
  ∃ stats,
    Statistics.calculateStatistics Host.menu_data = inr stats
    ∧ cuisines_of Host.menu_data ["thai"]
    ∧ length (Statistics.recipes_by_cuisine stats) = 1%nat
    ∧ (∀ n, JS.obj_get (Statistics.recipes_by_cuisine stats) "thai" = Some n → n = 2%nat).
Proof.
  destruct (Statistics.calculateStatistics Host.menu_data) as [error|stats] eqn:Hstats;
    [by vm_compute in Hstats|].
  assert (Hcuisines : cuisines_of Host.menu_data ["thai"]).
  { split; [apply NoDup_singleton|]. intros k. rewrite list_elem_of_singleton. split.
    - intros ->. split; [done|]. eexists. split; [left | reflexivity].
    - intros [_ (item & Hitem & <-)]. vm_compute in Hitem.
      repeat (apply elem_of_cons in Hitem as [->|Hitem]; [reflexivity|]).
      by apply elem_of_nil in Hitem. }
  exists stats. split; [done|]. split; [done|].
  destruct (recipes_by_cuisine_top20 Host.menu_data stats ["thai"] Hstats Hcuisines)
    as (Hlength & Hcounts & _).
  split; [exact Hlength|]. intros n Hn. by destruct (Hcounts "thai" n Hn) as (_ & -> & _).
Defined.

(** X14.  When [calculateStatistics] returns, [diet_types] lists the diets
    of the dataset, each once, in ascending order of their code units;
    [cuisine_types] does the same for the cuisines that are not empty. *)
Theorem type_lists_sorted_distinct (data : list Statistics.DietRecord)
    (stats : Statistics.Stats) :
  Statistics.calculateStatistics data = inr stats →
  StronglySorted (fun a b => String.ltb a b = true) (Statistics.diet_types stats)
  ∧ (∀ k, k ∈ Statistics.diet_types stats
          ↔ ∃ item, item ∈ data ∧ Statistics.Diet_type item = k)
  ∧ StronglySorted (fun a b => String.ltb a b = true) (Statistics.cuisine_types stats)
  ∧ (∀ k, k ∈ Statistics.cuisine_types stats
          ↔ k ≠ "" ∧ ∃ item, item ∈ data ∧ Statistics.Cuisine_type item = k).
Proof.
  intros Hstats. returned Hstats dietGroups cuisineGroups. clear Hdiet Hcuisine.
  cbn [Statistics.diet_types Statistics.cuisine_types].
  destruct (Set_elements_spec (Statistics.Diet_type <$> data)) as [Hnd Hin].
  destruct (sort_strings_spec _ Hnd) as [Hsorted Hsame].
  destruct (Set_elements_spec
              (List.filter (fun c => negb (String.eqb c ""))
                 (Statistics.Cuisine_type <$> data))) as [Hnd' Hin'].
  destruct (sort_strings_spec _ Hnd') as [Hsorted' Hsame'].
  split; [done|]. split; [|split; [done|]].
  - intros k. rewrite Hsame, Hin, list_elem_of_fmap.
    split; [intros (y & -> & Hy) | intros (y & Hy & <-)]; by exists y.
  - intros k. rewrite Hsame', Hin', list_elem_of_In, List.filter_In, <- list_elem_of_In.
    rewrite list_elem_of_fmap, negb_true_iff, String.eqb_neq.
    split.
    + intros [(y & -> & Hy) Hne]. split; [done|]. by exists y.
    + intros [Hne (y & Hy & <-)]. split; [|done]. by exists y.
Qed.

(** X14 at work: the diets of the menu come out in alphabetical order, not
    in file order. *)
Lemma type_lists_sorted_distinct_witness :
  ∃ stats,
    Statistics.calculateStatistics Host.menu_data = inr stats
    ∧ Statistics.Diet_type <$> Host.menu_data = ["keto"; "paleo"]
    ∧ StronglySorted (fun a b => String.ltb a b = true) (Statistics.diet_types stats)
    ∧ Statistics.cuisine_types stats = ["thai"].
Proof.
  destruct (Statistics.calculateStatistics Host.menu_data) as [error|stats] eqn:Hstats;
    [by vm_compute in Hstats|].
  exists stats. split; [done|]. split; [reflexivity|].
  split; [exact (proj1 (type_lists_sorted_distinct Host.menu_data stats Hstats))|].
  vm_compute in Hstats. by injection Hstats as <-.
Defined.

(** X15.  When [calculateStatistics] returns, each ranking of recipes has
    ten entries, or as many as there are records when there are fewer, and
    its entries are taken from different records of the dataset. *)
Theorem top_recipes_taken_from_data (data : list Statistics.DietRecord)
    (stats : Statistics.Stats) :
  Statistics.calculateStatistics data = inr stats →
  length (Statistics.top_calorie_recipes stats) = (10 `min` length data)%nat
  ∧ length (Statistics.high_protein_recipes stats) = (10 `min` length data)%nat
  ∧ (∃ picked rest,
       data ≡ₚ picked ++ rest
       ∧ Statistics.top_calorie_recipes stats
         = (fun item => {| Statistics.ce_Recipe_name := Statistics.Recipe_name item;
                           Statistics.ce_Diet_type := Statistics.Diet_type item;
                           Statistics.ce_Cuisine_type := Statistics.Cuisine_type item;
                           Statistics.ce_Calories := Statistics.Calories item |})
           <$> picked)
  ∧ (∃ picked rest,
       data ≡ₚ picked ++ rest
       ∧ Statistics.high_protein_recipes stats
         = (fun item => {| Statistics.pe_Recipe_name := Statistics.Recipe_name item;
                           Statistics.pe_Diet_type := Statistics.Diet_type item;
                           Statistics.pe_Cuisine_type := Statistics.Cuisine_type item;
                           Statistics.pe_Protein_g := Statistics.Protein_g item |})
           <$> picked).
Proof.
  intros Hstats. returned Hstats dietGroups cuisineGroups. clear Hdiet Hcuisine.
  cbn [Statistics.top_calorie_recipes Statistics.high_protein_recipes].
  split; [by rewrite length_fmap, length_take, Array_sort_length|].
  split; [by rewrite length_fmap, length_take, Array_sort_length|].
  split.
  - eexists _, (drop 10 _). split; [|reflexivity].
    by rewrite take_drop, Array_sort_Permutation.
  - eexists _, (drop 10 _). split; [|reflexivity].
    by rewrite take_drop, Array_sort_Permutation.
Qed.

(** X15 at work: both rankings of the menu have its two recipes. *)
Lemma top_recipes_taken_from_data_witness :
  ∃ stats,
    Statistics.calculateStatistics Host.menu_data = inr stats
    ∧ length (Statistics.top_calorie_recipes stats) = 2%nat
    ∧ length (Statistics.high_protein_recipes stats) = 2%nat.
Proof.
  destruct (Statistics.calculateStatistics Host.menu_data) as [error|stats] eqn:Hstats;
    [by vm_compute in Hstats|].
  exists stats. split; [done|].
  destruct (top_recipes_taken_from_data Host.menu_data stats Hstats) as (Hc & Hp & _).
  by split.
Defined.

(** ** The statistics handler over time *)

Section Ages.
Variable Papa_parse : string → list RawRecord.
Variable CSV_FILE_PATH : string.
Variable message : Statistics.TypeError → string.

(** X16.  Statistics calculated at a time other than zero, by a calculation
    that returned, are served again, bit for bit, by every request that
    comes less than an hour later: the source is not looked at, and the
    cache stays as it is. *)
Theorem statistics_repeated now now' fs fs' c file stats :
  expired now c →
  fs !! CSV_FILE_PATH = Some file →
  Statistics.calculateStatistics (Statistics.clean_rows (Papa_parse (text file))) = inr stats →
  now ≠ 0 →
  now' - now < Statistics.CACHE_DURATION →
  Statistics.GET Papa_parse CSV_FILE_PATH message now fs c
  = (Statistics.Json200 stats,
     {| Statistics.cachedStats := Some stats; Statistics.lastStatsCalcTime := Some now |})
  ∧ Statistics.GET Papa_parse CSV_FILE_PATH message now' fs'
      (Statistics.GET Papa_parse CSV_FILE_PATH message now fs c).2
    = Statistics.GET Papa_parse CSV_FILE_PATH message now fs c.
Proof.
  intros Hexp Hfile Hstats Hnow Hage.
  rewrite (GET_expired _ _ _ _ _ _ _ Hexp Hfile), Hstats. split; [done|].
  unfold Statistics.GET. by erewrite fresh_within.
Qed.

(** X17.  When the snapshot has expired and the source file is missing, the
    handler answers 404 and keeps the cache as it is; the expired snapshot
    is not served. *)
Theorem statistics_without_file now fs c :
  expired now c →
  fs !! CSV_FILE_PATH = None →
  Statistics.GET Papa_parse CSV_FILE_PATH message now fs c
  = (Statistics.Json404 "Dataset file not found", c).
Proof.
  intros Hexp Hfile. unfold Statistics.GET.
  rewrite (fresh_expired _ _ Hexp), Hfile.
  rewrite bool_decide_eq_false_2; [done | by intros [? ?]].
Qed.

End Ages.

(** X16 at work: computed at time 1000, served again at time 2000 although
    the file is gone. *)
Lemma statistics_repeated_witness :
  ∃ stats,
    Statistics.calculateStatistics Host.menu_data = inr stats
    ∧ Host.statistics 1000 Host.menu_disk Statistics.initial
      = (Statistics.Json200 stats,
         {| Statistics.cachedStats := Some stats;
            Statistics.lastStatsCalcTime := Some 1000 |})
    ∧ Host.statistics 2000 Host.no_disk
        (Host.statistics 1000 Host.menu_disk Statistics.initial).2
      = Host.statistics 1000 Host.menu_disk Statistics.initial.
Proof.
  unfold Host.menu_data.
  destruct (Statistics.calculateStatistics _) as [error|stats] eqn:Hstats;
    [by vm_compute in Hstats|].
  exists stats. split; [done|].
  apply (statistics_repeated Host.Papa_parse Host.csvPath Host.message 1000 2000
           Host.menu_disk Host.no_disk Statistics.initial
           {| mtimeMs := 1000; text := Host.unlines (Host.header :: Host.menu) |} stats).
  - by left.
  - reflexivity.
  - cbn [text]. exact Hstats.
  - done.
  - reflexivity.
Defined.

(** X17 at work: a first request without any file. *)
Lemma statistics_without_file_witness :
  Host.statistics 1000 Host.no_disk Statistics.initial
  = (Statistics.Json404 "Dataset file not found", Statistics.initial).
Proof.
  apply (statistics_without_file Host.Papa_parse Host.csvPath Host.message 1000
           Host.no_disk Statistics.initial); [by left | reflexivity].
Defined.

(** ** Bursts of requests *)

Section Bursts.
Variable Papa_parse : string → list RawRecord.
Variable localeCompare : string → string → float.
Variable localPath : string.

Implicit Types (g : Dataset.Globals) (data : Dataset.ref) (fs : gmap string File).

Lemma hits_loadData fs data g :
  hits fs data g → Dataset.loadData Papa_parse localPath fs g = (inr data, g).
Proof.
  intros (p & file & Hpath & Htruthy & Hfile & Hcached & Hsame).
  unfold Dataset.loadData. rewrite Hpath, Htruthy. cbv beta iota zeta. rewrite Hpath.
  change (default "" (Some p)) with p. by rewrite Hfile, Hcached, Hsame.
Qed.

Lemma hits_same_variables fs data g g' :
  same_variables g g' → hits fs data g → hits fs data g'.
Proof.
  intros (Hc & Ht & Hp & _) (p & file & Hpath & Htruthy & Hfile & Hcached & Hsame).
  exists p, file. rewrite Hc, Ht, Hp. done.
Qed.

Lemma hits_serve fs data (requests : list (gmap string File * list (string * string))) :
  ∀ g,
    Forall (fun request => request.1 = fs) requests →
    hits fs data g →
    Dataset.fileReads (Dataset.serve Papa_parse localeCompare localPath requests g).2
    = Dataset.fileReads g
    ∧ Dataset.cachedData (Dataset.serve Papa_parse localeCompare localPath requests g).2
      = Some data
    ∧ forallb succeeded (Dataset.serve Papa_parse localeCompare localPath requests g).1
      = true.
Proof.
  induction requests as [|[fs' searchParams] requests IH]; intros g Hfs Hhits.
  - destruct Hhits as (p & file & _ & _ & _ & Hcached & _). done.
  - apply Forall_cons in Hfs as [Heq Hfs]. simpl in Heq. subst fs'.
    pose proof (hits_loadData fs data g Hhits) as Hload.
    destruct (GET_loaded Papa_parse localeCompare localPath fs searchParams g data g Hload)
      as (g2 & HGET & Hvars & _).
    cbn [Dataset.serve]. unfold Dataset.bind. rewrite HGET.
    destruct (IH g2 Hfs (hits_same_variables fs data g g2 Hvars Hhits)) as (Hr & Hc & Hok).
    destruct (Dataset.serve Papa_parse localeCompare localPath requests g2) as [rs g3].
    cbn in *. destruct Hvars as (_ & _ & _ & Hreads). by rewrite Hr, Hreads.
Qed.

(** X18.  A burst of requests on a source that does not change reads the
    file once: after the load that filled the cache, every request of the
    burst succeeds without any further read and the cache keeps the same
    array. *)
Theorem burst_reads_the_file_once fs g data g1
    (requests : list (gmap string File * list (string * string))) :
  localPath ≠ "" →
  (∀ p file, fs !! p = Some file → is_nan (mtimeMs file) = false) →
  Dataset.loadData Papa_parse localPath fs g = (inr data, g1) →
  Forall (fun request => request.1 = fs) requests →
  Dataset.fileReads (Dataset.serve Papa_parse localeCompare localPath requests g1).2
  = Dataset.fileReads g1
  ∧ Dataset.cachedData (Dataset.serve Papa_parse localeCompare localPath requests g1).2
    = Some data
  ∧ forallb succeeded (Dataset.serve Papa_parse localeCompare localPath requests g1).1
    = true.
Proof.
  intros Hlocal Htimes Hload Hfs. apply (hits_serve fs data); [done|].
  destruct (loadData_returns Papa_parse localPath fs g data g1 Hlocal Hload)
    as (p & file & Hpath & Htruthy & Hfile & Hcached & Htime).
  exists p, file. split_and!; try done.
  destruct Htime as [Hs | ->]; [exact Hs|]. cbn.
  pose proof (Htimes p file Hfile) as Hnan. unfold is_nan in Hnan.
  by apply negb_false_iff in Hnan.
Qed.

End Bursts.

(** X18 at work: three requests on [Host.menu_disk]. *)
Lemma burst_reads_the_file_once_witness :
  Dataset.fileReads
    (Host.serve [(Host.menu_disk, [("diet_type", "keto")]);
                 (Host.menu_disk, [("sort_by", "fat")]); (Host.menu_disk, [])]
       (Host.loadData Host.menu_disk Dataset.initial).2).2
  = 1%nat.
Proof.
  change 1%nat with (Dataset.fileReads (Host.loadData Host.menu_disk Dataset.initial).2).
  apply (burst_reads_the_file_once Host.Papa_parse Host.localeCompare Host.localPath
           Host.menu_disk Dataset.initial 0%nat).
  - discriminate.
  - intros p file Hfile. unfold Host.menu_disk, Host.disk in Hfile.
    apply lookup_singleton_Some in Hfile as [_ <-]. reflexivity.
  - exact menu_loads.
  - by repeat constructor.
Defined.
